(** * Checkout and payment reconciliation of the perfume shop backend

    A shallow embedding of the order workflow of [controllers.js]
    ([normalizeMpesaNumber], [createOrder], [mpesaCallback],
    [updateOrderStatus]) over the documents declared in [models.js].
    Line numbers are those of [src/models.js], which holds [models.js]
    followed by [controllers.js].

    Modelling conventions.
    - A MongoDB collection keyed by [_id] is a finite map ([Product]) or,
      where the natural order of the documents matters for [findOne], a
      list in insertion order ([Order]).
    - JavaScript numbers that hold prices, stock counts and quantities are
      integers ([Z]); a JSON field that may be absent is an [option].  The
      integers stand for the doubles of the code as long as every value
      computed stays below 2^53 in absolute value, where double arithmetic
      is exact; the running total of the checkout is also given on doubles
      themselves ([Double.accumulate]).
    - Strings are byte strings.  The only character test of the workflow,
      the regular expression [\D], tells ASCII digits from everything else,
      so the encoding of the other characters is irrelevant.
    - One handler runs at a time: the store is passed in and returned.  The
      environment ([Env]) supplies what the handler reads from outside: the
      clock, the identifiers mongoose generates, the payment provider. *)

From Stdlib Require Import ZArith Ascii String DecimalString DecimalPos DecimalN.
From Stdlib Require PrimFloat FloatOps SpecFloat.
From stdpp Require Import base option list strings gmap fin_maps.

Local Open Scope string_scope.

(** ** JavaScript string helpers *)

(** [\d] without the unicode flag: the ten ASCII digits. *)
Definition is_digit (c : ascii) : bool :=
  let n := nat_of_ascii c in (48 <=? n)%nat && (n <=? 57)%nat.

(** [s.replace(/\D/g, '')] *)
Fixpoint replace_non_digits (s : string) : string :=
  match s with
  | EmptyString => EmptyString
  | String c r =>
      if is_digit c then String c (replace_non_digits r)
      else replace_non_digits r
  end.

(** [s.startsWith(p)] *)
Fixpoint startsWith (s p : string) {struct p} : bool :=
  match p, s with
  | EmptyString, _ => true
  | String a p', String b s' => if Ascii.eqb a b then startsWith s' p' else false
  | String _ _, EmptyString => false
  end.

(** [s.substring(1)] *)
Definition substring1 (s : string) : string :=
  match s with
  | EmptyString => EmptyString
  | String _ r => r
  end.

(** JavaScript truthiness of an optional string: [undefined] and [''] are
    falsy. *)
Definition truthy (s : option string) : option string :=
  match s with
  | Some EmptyString => None
  | other => other
  end.

(** [n.toString()] for an integer. *)
Definition toString (z : Z) : string := NilZero.string_of_int (Z.to_int z).

(** ** Exceptions raised inside the handlers *)

Module Axios.
(** [response.data] of a successful call. *)
Record data := mkData {
  output_ConversationID : option string;
  output_ResponseCode : option string;
  output_ResponseDesc : option string
}.
(** [error.response.data] of a rejected call, as far as the handler reads it. *)
Record errdata := mkErr {
  err_ResponseDesc : option string;
  output_error : option string
}.
(** Outcome of [axios.post]: fulfilled, rejected with a response of the
    provider, rejected without one (network failure). *)
Inductive result :=
| Fulfilled (d : data)
| RejectedResponse (status : Z) (d : errdata)
| RejectedNoResponse.
End Axios.

Inductive Exn :=
| ProductNotFound (productId : string)     (* line 372; see [reserve] *)
| InsufficientStock (productName : string) (* line 375 *)
| ValidationError                          (* mongoose, on [order.save] *)
| InvalidPhoneNumber (phone : string)      (* line 332 *)
| AxiosError (response : option (Z * Axios.errdata))
| ReferenceError (ident : string)
| MongoTransactionError
| CastError (value : string).              (* mongoose, on [findById] *)

(** A small error monad for the bodies of the [try] blocks, with stdpp's
    notation [x ← m; k]. *)
Definition Try : Type -> Type := sum Exn.
Definition throw {A} (e : Exn) : Try A := inl e.
#[global] Instance Try_ret : MRet Try := fun A a => inr a.
#[global] Instance Try_bind : MBind Try := fun A B k m =>
  match m with
  | inl e => inl e
  | inr a => k a
  end.

(** ** Phone normalisation ([normalizeMpesaNumber], lines 320-333) *)

Definition normalizeMpesaNumber (phone : string) : Try string :=
  let cleanPhone := replace_non_digits phone in
  let cleanPhone :=
    if startsWith cleanPhone "0" then substring1 cleanPhone else cleanPhone in
  if (String.length cleanPhone =? 9)%nat
     && (startsWith cleanPhone "84" || startsWith cleanPhone "85")
  then mret ("258" ++ cleanPhone)
  else if (String.length cleanPhone =? 12)%nat && startsWith cleanPhone "258"
  then mret cleanPhone
  else throw (InvalidPhoneNumber phone).

(** ** Documents ([models.js]) *)

Module Product.
(** The fields of [ProductSchema] the order workflow reads or writes; the
    document's [_id] is its key in the catalog. *)
Record t := mk { name : string; price : Z; stock : Z }.
Definition set_stock (p : t) (s : Z) : t := mk (name p) (price p) s.
End Product.

Module Customer.
Record t := mk { name : string; phone : string; address : string }.
End Customer.

(** An element of [req.body.products]. *)
Module CartItem.
Record t := mk { productId : string; quantity : Z }.
End CartItem.

(** An element of [order.products]. *)
Module LineItem.
Record t := mk { product : string; quantity : Z; price : Z }.
End LineItem.

Inductive PaymentStatus := pending | paid | failed.
Inductive OrderStatus := processing | shipped | delivered | cancelled.

#[global] Instance PaymentStatus_eq_dec : EqDecision PaymentStatus.
Proof. solve_decision. Defined.
#[global] Instance OrderStatus_eq_dec : EqDecision OrderStatus.
Proof. solve_decision. Defined.

Module Mpesa.
(** [order.mpesaDetails] *)
Record details := mkDetails {
  transactionReference : option string;
  thirdPartyReference : option string;
  conversationID : option string;
  responseCode : option string;
  responseDescription : option string
}.
(** The body posted to [config.mpesa.apiURL]. *)
Record payload := mkPayload {
  input_TransactionReference : string;
  input_CustomerMSISDN : string;
  input_Amount : string;
  input_ThirdPartyReference : string;
  input_ServiceProviderCode : string
}.
End Mpesa.

Module Order.
Record t := mk {
  _id : string;
  customerInfo : Customer.t;
  products : list LineItem.t;
  totalAmount : Z;
  paymentMethod : string;
  paymentStatus : PaymentStatus;
  orderStatus : OrderStatus;
  mpesaDetails : Mpesa.details;
  trackingId : string
}.
Definition set_paymentStatus (o : t) (s : PaymentStatus) : t :=
  mk (_id o) (customerInfo o) (products o) (totalAmount o) (paymentMethod o)
     s (orderStatus o) (mpesaDetails o) (trackingId o).
Definition set_orderStatus (o : t) (s : OrderStatus) : t :=
  mk (_id o) (customerInfo o) (products o) (totalAmount o) (paymentMethod o)
     (paymentStatus o) s (mpesaDetails o) (trackingId o).
Definition set_mpesaDetails (o : t) (d : Mpesa.details) : t :=
  mk (_id o) (customerInfo o) (products o) (totalAmount o) (paymentMethod o)
     (paymentStatus o) (orderStatus o) d (trackingId o).
End Order.

(** [order.mpesaDetails.conversationID = ...] and the two assignments after
    it (lines 425-427). *)
Definition set_acknowledgment (o : Order.t) (d : Axios.data) : Order.t :=
  let m := Order.mpesaDetails o in
  Order.set_mpesaDetails o
    (Mpesa.mkDetails (Mpesa.transactionReference m) (Mpesa.thirdPartyReference m)
       (Axios.output_ConversationID d) (Axios.output_ResponseCode d)
       (Axios.output_ResponseDesc d)).

(** [order.mpesaDetails.responseCode = resultCode] and the assignment after
    it (lines 496-497). *)
Definition set_result (o : Order.t) (code desc : option string) : Order.t :=
  let m := Order.mpesaDetails o in
  Order.set_mpesaDetails o
    (Mpesa.mkDetails (Mpesa.transactionReference m) (Mpesa.thirdPartyReference m)
       (Mpesa.conversationID m) code desc).

(** The validators of [OrderSchema] that a document built by [createOrder]
    can fail: the three required strings of [customerInfo] (a required
    string must be non-empty) and the [enum] of [paymentMethod]. *)
Definition paymentMethods : list string := ["Mpesa"; "Emola"; "Cartao"; "Entrega"].

Definition nonempty (s : string) : bool :=
  match s with
  | EmptyString => false
  | String _ _ => true
  end.

Definition validate (o : Order.t) : bool :=
  nonempty (Customer.name (Order.customerInfo o))
  && nonempty (Customer.phone (Order.customerInfo o))
  && nonempty (Customer.address (Order.customerInfo o))
  && bool_decide (Order.paymentMethod o ∈ paymentMethods).

(** ** The store *)

Record Store := mkStore {
  catalog : gmap string Product.t;   (* the [Product] collection *)
  orders : list Order.t              (* the [Order] collection *)
}.

(** [Order.findOne({ 'mpesaDetails.thirdPartyReference': ref })]: the first
    matching document, with its position. *)
Fixpoint findOne (ref : string) (os : list Order.t) : option (nat * Order.t) :=
  match os with
  | [] => None
  | o :: rest =>
      if bool_decide (Mpesa.thirdPartyReference (Order.mpesaDetails o) = Some ref)
      then Some (0%nat, o)
      else '(i, o') ← findOne ref rest; Some (S i, o')
  end.

(** [Order.findById(id)] *)
Fixpoint findById (id : string) (os : list Order.t) : option (nat * Order.t) :=
  match os with
  | [] => None
  | o :: rest =>
      if bool_decide (Order._id o = id) then Some (0%nat, o)
      else '(i, o') ← findById id rest; Some (S i, o')
  end.

(** ** The environment of a handler *)

Module Notification.
Inductive text :=
| OrderCreated (name trackingId : string) (total : Z)         (* line 441 *)
| PaymentConfirmed (trackingId : string)                      (* line 503 *)
| PaymentFailed (trackingId : string) (desc : option string)  (* line 507 *)
| StatusChanged (trackingId : string) (status : OrderStatus). (* line 553 *)
Record t := mk { to : string; message : text }.
End Notification.

Record Env := mkEnv {
  now : N;                      (* [Date.now()] *)
  newOrderId : string;          (* the [_id] mongoose gives a new order *)
  newTrackingId : string;       (* the default of [trackingId] *)
  serviceProviderCode : string; (* [config.mpesa.serviceProviderCode] *)
  mpesaApi : Mpesa.payload -> Axios.result; (* the provider behind [axios.post] *)
  sock : bool                   (* is the WhatsApp client initialised *)
}.

(** [sendWhatsAppMessage] (lines 337-350): without a client nothing is sent;
    a failure of the send is caught and logged.  The result lists the
    messages handed to the client. *)
Definition sendWhatsAppMessage (env : Env) (to : string) (m : Notification.text)
  : list Notification.t :=
  if sock env
  then [Notification.mk (replace_non_digits to ++ "@s.whatsapp.net") m]
  else [].

Module Http.
Inductive body :=
| Empty                                        (* [res.status(n).send()] *)
| IncompleteOrder                              (* line 363 *)
| Created (orderId trackingId : string) (mpesaResponse : option Axios.data)
                                               (* lines 444-449 *)
| PaymentServiceFailure (apiErrorMessage : option string) (error : Axios.errdata)
                                               (* line 462 *)
| OrderError (error : Exn)                     (* line 468 *)
| MissingReference                             (* line 487 *)
| CallbackProcessed                            (* line 521 *)
| OrderNotFound                                (* line 546 *)
| OrderJson (o : Order.t)                      (* line 556 *)
| StatusUpdateError (error : Exn).             (* line 558 *)
Record response := mk { status : Z; content : body }.
End Http.

(** What a handler leaves behind: the response ([None] when the handler's
    promise rejects and nothing is sent), the store, the requests made to
    the payment provider and the messages handed to the WhatsApp client. *)
Record Outcome := mkOutcome {
  response : option Http.response;
  store : Store;
  requests : list Mpesa.payload;
  notifications : list Notification.t
}.

(** ** Checkout ([createOrder], lines 355-473) *)

Record CheckoutBody := mkCheckout {
  body_customerInfo : option Customer.t;
  body_products : option (list CartItem.t);
  body_paymentMethod : option string
}.

(** The accumulators of the loop over the cart, with the session's view of
    the catalog. *)
Record Cart := mkCart {
  view : gmap string Product.t;
  total : Z;
  productDetails : list LineItem.t
}.

(** One iteration of the loop (lines 370-383).  The keys of the catalog
    stand for ObjectIds.  A [productId] that is not an ObjectId finds no
    product either: [Product.findById] then rejects with a CastError
    instead of the error of line 372, at the same point of the loop and
    with the same effect, and [ProductNotFound] stands for both. *)
Definition reserve (acc : Cart) (item : CartItem.t) : Try Cart :=
  let id := CartItem.productId item in
  match view acc !! id with
  | None => throw (ProductNotFound id)
  | Some product =>
      if (Product.stock product <? CartItem.quantity item)%Z
      then throw (InsufficientStock (Product.name product))
      else
        mret (mkCart
          (<[id := Product.set_stock product
                     (Product.stock product - CartItem.quantity item)]> (view acc))
          (total acc + Product.price product * CartItem.quantity item)
          (productDetails acc ++
             [LineItem.mk id (CartItem.quantity item) (Product.price product)]))
  end.

(** [for (const item of products) ...] *)
Fixpoint reserveAll (items : list CartItem.t) (acc : Cart) : Try Cart :=
  match items with
  | [] => mret acc
  | item :: rest => acc' ← reserve acc item; reserveAll rest acc'
  end.

(** Line 387. *)
Definition newReference (env : Env) : string :=
  "PERFUME_" ++ NilZero.string_of_uint (N.to_uint (now env)).

(** [new Order({...})] (lines 389-397), with the schema's defaults. *)
Definition newOrder (env : Env) (customerInfo : Customer.t) (c : Cart)
    (paymentMethod : string) : Order.t :=
  Order.mk (newOrderId env) customerInfo (productDetails c) (total c)
    paymentMethod pending processing
    (Mpesa.mkDetails None (Some (newReference env)) None None None)
    (newTrackingId env).

(** [order.save({ session })]: validation, then the write. *)
Definition saveOrder (o : Order.t) : Try Order.t :=
  if validate o then mret o else throw ValidationError.

(** Lines 405-411. *)
Definition mpesaPayload (env : Env) (o : Order.t) (msisdn : string) : Mpesa.payload :=
  Mpesa.mkPayload (newReference env) msisdn (toString (Order.totalAmount o))
    (newReference env) (serviceProviderCode env).

(** The payment branch (lines 402-436): the requests it makes and the order
    it saves last. *)
Definition payment (env : Env) (order : Order.t)
  : list Mpesa.payload * Try (Order.t * option Axios.data) :=
  if bool_decide (Order.paymentMethod order = "Mpesa") then
    match normalizeMpesaNumber (Customer.phone (Order.customerInfo order)) with
    | inl e => ([], inl e)
    | inr mpesaPhoneNumber =>
        let p := mpesaPayload env order mpesaPhoneNumber in
        match mpesaApi env p with
        | Axios.Fulfilled d =>
            ([p], o ← saveOrder (set_acknowledgment order d); mret (o, Some d))
        | Axios.RejectedResponse st d => ([p], throw (AxiosError (Some (st, d))))
        | Axios.RejectedNoResponse => ([p], throw (AxiosError None))
        end
    end
  else
    ([], o ← saveOrder (Order.set_paymentStatus order
                          (if bool_decide (Order.paymentMethod order = "Entrega")
                           then pending else paid));
         mret (o, None)).

(** Lines 366-436, run inside the transaction: the requests made to the
    provider, and either the exception raised or the session's view of the
    store with the order as last saved. *)
Definition transaction (env : Env) (db : Store) (customerInfo : Customer.t)
    (products : list CartItem.t) (paymentMethod : string)
  : list Mpesa.payload * Try (Store * Order.t * option Axios.data) :=
  match
    c ← reserveAll products (mkCart (catalog db) 0 []);
    o ← saveOrder (newOrder env customerInfo c paymentMethod);
    mret (c, o)
  with
  | inl e => ([], inl e)
  | inr (c, o) =>
      let '(sent, r) := payment env o in
      (sent, '(o', mpesaResponse) ← r;
             mret (mkStore (view c) (orders db ++ [o']), o', mpesaResponse))
  end.

(** The session's transaction, as far as [abortTransaction] tells its states
    apart: the driver refuses to abort a transaction that was committed. *)
Inductive TxnState := TxnInProgress | TxnCommitted.

Definition abortTransaction (t : TxnState) : Try unit :=
  match t with
  | TxnInProgress => mret ()
  | TxnCommitted => throw MongoTransactionError
  end.

(** The [catch] block (lines 451-469).  An exception of [abortTransaction]
    leaves the handler through [finally]: no response is sent. *)
Definition catchCreateOrder (t : TxnState) (error : Exn) : option Http.response :=
  match abortTransaction t with
  | inl _ => None
  | inr _ =>
      match error with
      | AxiosError (Some (_, d)) =>
          Some (Http.mk 500 (Http.PaymentServiceFailure
                  (match truthy (Axios.err_ResponseDesc d) with
                   | Some m => Some m
                   | None => truthy (Axios.output_error d)
                   end) d))
      | _ => Some (Http.mk 500 (Http.OrderError error))
      end
  end.

(** The object passed to [res.status(201).json] (lines 444-449).  The name
    [mpesaResponse] is declared by [const] inside the block of the [if] of
    line 402 and is not in scope here: evaluating it raises. *)
Definition createdBody (o : Order.t) (paymentMethod : string) : Try Http.body :=
  mpesaResponse ←
    (if bool_decide (paymentMethod = "Mpesa")
     then throw (ReferenceError "mpesaResponse")
     else mret None);
  mret (Http.Created (Order._id o) (Order.trackingId o) mpesaResponse).

(** The check of line 362. *)
Definition validated (body : CheckoutBody)
  : option (Customer.t * list CartItem.t * string) :=
  match body_customerInfo body, body_products body, truthy (body_paymentMethod body) with
  | Some customerInfo, Some products, Some paymentMethod =>
      Some (customerInfo, products, paymentMethod)
  | _, _, _ => None
  end.

Definition createOrder (env : Env) (db : Store) (body : CheckoutBody) : Outcome :=
  match validated body with
  | None => mkOutcome (Some (Http.mk 400 Http.IncompleteOrder)) db [] []
  | Some (customerInfo, products, paymentMethod) =>
      let '(sent, r) := transaction env db customerInfo products paymentMethod in
      match r with
      | inl e => mkOutcome (catchCreateOrder TxnInProgress e) db sent []
      | inr (tx, order, _) =>
          (* [commitTransaction], then the notification *)
          let notes :=
            sendWhatsAppMessage env (Customer.phone customerInfo)
              (Notification.OrderCreated (Customer.name customerInfo)
                 (Order.trackingId order) (Order.totalAmount order)) in
          match createdBody order paymentMethod with
          | inr b => mkOutcome (Some (Http.mk 201 b)) tx sent notes
          | inl e => mkOutcome (catchCreateOrder TxnCommitted e) tx sent notes
          end
      end
  end.

(** ** Payment callback ([mpesaCallback], lines 477-527) *)

Module Callback.
Record t := mk {
  input_ThirdPartyReference : option string;
  input_ResultCode : option string;
  input_ResultDesc : option string
}.
End Callback.

(** [Product.updateOne({ _id: item.product }, { $inc: { stock: item.quantity } })]:
    nothing happens when no product has that [_id]. *)
Definition incStock (cat : gmap string Product.t) (item : LineItem.t)
  : gmap string Product.t :=
  alter (fun p => Product.set_stock p (Product.stock p + LineItem.quantity item))
        (LineItem.product item) cat.

(** The loop of lines 510-512. *)
Definition restoreStock (items : list LineItem.t) (cat : gmap string Product.t)
  : gmap string Product.t :=
  foldl incStock cat items.

Definition mpesaCallback (env : Env) (db : Store) (body : Callback.t) : Outcome :=
  let resultCode := Callback.input_ResultCode body in
  let resultDesc := Callback.input_ResultDesc body in
  match truthy (Callback.input_ThirdPartyReference body) with
  | None => mkOutcome (Some (Http.mk 400 Http.MissingReference)) db [] []
  | Some thirdPartyReference =>
      match findOne thirdPartyReference (orders db) with
      | None => mkOutcome (Some (Http.mk 404 Http.Empty)) db [] []
      | Some (i, order) =>
          let order := set_result order resultCode resultDesc in
          let '(order, message, cat) :=
            if bool_decide (resultCode = Some "INS-0") then
              (Order.set_orderStatus (Order.set_paymentStatus order paid) processing,
               Notification.PaymentConfirmed (Order.trackingId order),
               catalog db)
            else
              (Order.set_orderStatus (Order.set_paymentStatus order failed) cancelled,
               Notification.PaymentFailed (Order.trackingId order) resultDesc,
               restoreStock (Order.products order) (catalog db)) in
          (* the stock updates are not part of a transaction: they stay
             when [order.save()] rejects *)
          match saveOrder order with
          | inl _ => mkOutcome (Some (Http.mk 500 Http.Empty)) (mkStore cat (orders db)) [] []
          | inr order =>
              mkOutcome (Some (Http.mk 200 Http.CallbackProcessed))
                (mkStore cat (<[i := order]> (orders db))) []
                (sendWhatsAppMessage env
                   (Customer.phone (Order.customerInfo order)) message)
          end
      end
  end.

(** ** Administrative status update ([updateOrderStatus], lines 540-560) *)

(** The [enum] validator of [orderStatus]. *)
Definition parseOrderStatus (s : option string) : Try OrderStatus :=
  match s with
  | Some "processing" => mret processing
  | Some "shipped" => mret shipped
  | Some "delivered" => mret delivered
  | Some "cancelled" => mret cancelled
  | _ => throw ValidationError
  end.

(** [req.params.id] as mongoose's cast to an ObjectId leaves it: a string
    that is an ObjectId, or one that is not, for which [Order.findById]
    rejects with a CastError.  A plain string is read as an ObjectId. *)
Inductive DocumentId :=
| ObjectId (id : string)
| NotObjectId (raw : string).

Coercion ObjectId : string >-> DocumentId.

Definition updateOrderStatus (env : Env) (db : Store) (id : DocumentId)
    (orderStatus : option string) : Outcome :=
  match id with
  | NotObjectId raw =>
      (* the rejection of [Order.findById] is caught on line 557 *)
      mkOutcome (Some (Http.mk 500 (Http.StatusUpdateError (CastError raw)))) db [] []
  | ObjectId id =>
      match findById id (orders db) with
      | None => mkOutcome (Some (Http.mk 404 Http.OrderNotFound)) db [] []
      | Some (i, order) =>
          match s ← parseOrderStatus orderStatus;
                saveOrder (Order.set_orderStatus order s) with
          | inl e => mkOutcome (Some (Http.mk 500 (Http.StatusUpdateError e))) db [] []
          | inr order =>
              mkOutcome (Some (Http.mk 200 (Http.OrderJson order)))
                (mkStore (catalog db) (<[i := order]> (orders db))) []
                (sendWhatsAppMessage env (Customer.phone (Order.customerInfo order))
                   (Notification.StatusChanged (Order.trackingId order)
                      (Order.orderStatus order)))
          end
      end
  end.

Arguments updateOrderStatus : simpl never.

(** ** Quantities the properties are about *)


(** The stock of one product; [0] when the catalog has no such product. *)
Definition stockOf (cat : gmap string Product.t) (id : string) : Z :=
  match cat !! id with
  | Some p => Product.stock p
  | None => 0
  end.



(** The quantity an order holds of one product, over all its lines. *)
Definition orderedOf (items : list LineItem.t) (id : string) : Z :=
  foldr (fun l acc =>
           if bool_decide (LineItem.product l = id)
           then (LineItem.quantity l + acc)%Z else acc) 0%Z items.

(** ** Phone normalisation: the rule in the words of its description *)

(** The digits of the input, in order. *)
Definition digitsOf (phone : string) : list ascii :=
  List.filter is_digit (list_ascii_of_string phone).

(** Drop one leading zero. *)
Definition dropLeadingZero (d : list ascii) : list ascii :=
  match d with
  | "0"%char :: r => r
  | _ => d
  end.

Definition carrierPrefixes : list (list ascii) :=
  [["8"; "4"]; ["8"; "5"]]%char.

Definition countryCode : list ascii := ["2"; "5"; "8"]%char.

(** Nine digits that start with a carrier prefix. *)
Definition localShape (d : list ascii) : Prop :=
  length d = 9%nat ∧ take 2 d ∈ carrierPrefixes.

(** Twelve digits that start with the country code. *)
Definition internationalShape (d : list ascii) : Prop :=
  length d = 12%nat ∧ take 3 d = countryCode.

Inductive Normalizes (phone : string) : Try string -> Prop :=
| normalizes_local :
    localShape (dropLeadingZero (digitsOf phone)) ->
    Normalizes phone
      (inr (string_of_list_ascii (countryCode ++ dropLeadingZero (digitsOf phone))))
| normalizes_international :
    internationalShape (dropLeadingZero (digitsOf phone)) ->
    Normalizes phone (inr (string_of_list_ascii (dropLeadingZero (digitsOf phone))))
| normalizes_invalid :
    ¬ localShape (dropLeadingZero (digitsOf phone)) ->
    ¬ internationalShape (dropLeadingZero (digitsOf phone)) ->
    Normalizes phone (inl (InvalidPhoneNumber phone)).

(** ** Notions the properties are stated with *)




(** The order as the handler leaves it before [order.save()]
    (lines 496-506). *)
Definition reconciled (o : Order.t) (body : Callback.t) : Order.t :=
  let o1 := set_result o (Callback.input_ResultCode body)
              (Callback.input_ResultDesc body) in
  if bool_decide (Callback.input_ResultCode body = Some "INS-0")
  then Order.set_orderStatus (Order.set_paymentStatus o1 paid) processing
  else Order.set_orderStatus (Order.set_paymentStatus o1 failed) cancelled.

(** The catalog as the handler leaves it. *)
Definition restocked (db : Store) (o : Order.t) (body : Callback.t)
  : gmap string Product.t :=
  if bool_decide (Callback.input_ResultCode body = Some "INS-0")
  then catalog db
  else restoreStock (Order.products o) (catalog db).

(** A product with [n] added to its stock. *)
Definition credit (n : Z) (p : Product.t) : Product.t :=
  Product.set_stock p (Product.stock p + n).



(** ** Sample data *)

Module Sample.
(** A provider that acknowledges every request. *)
Definition acknowledgment : Axios.data :=
  Axios.mkData (Some "AG_20240101_0001") (Some "INS-0")
    (Some "Request processed successfully").

Definition env : Env :=
  mkEnv 1700000000000 "65f0a1" "65f0a2" "171717"
    (fun _ => Axios.Fulfilled acknowledgment) true.

(** A second request served within the same millisecond. *)
Definition env2 : Env :=
  mkEnv 1700000000000 "65f0b1" "65f0b2" "171717"
    (fun _ => Axios.Fulfilled acknowledgment) true.

Definition P1 : Product.t := Product.mk "Oud Royal" 100 5.

Definition db : Store := mkStore {[ "P1" := P1 ]} [].

Definition customer : Customer.t :=
  Customer.mk "Ana" "841234567" "Av. 25 de Setembro, Maputo".

Definition cart : list CartItem.t := [CartItem.mk "P1" 2].

Definition checkout (paymentMethod : string) (items : list CartItem.t)
  : CheckoutBody :=
  mkCheckout (Some customer) (Some items) (Some paymentMethod).

Definition reference : string := "PERFUME_1700000000000".

Definition failure : Callback.t :=
  Callback.mk (Some reference) (Some "INS-6") (Some "Transaction Failed").

Definition success : Callback.t :=
  Callback.mk (Some reference) (Some "INS-0")
    (Some "Request processed successfully").

(** The store after a mobile-money checkout of [cart]. *)
Definition afterMpesa : Store := store (createOrder env db (checkout "Mpesa" cart)).

(** The store after the mobile-money checkout of the sample cart and the
    administrator's update of the order to shipped. *)
Definition shippedUnpaid : Store :=
  store (updateOrderStatus env afterMpesa "65f0a1" (Some "shipped")).
End Sample.

(** ** Route guards ([routes.js]) *)

(** [s.split(sep)] for a separator of one character. *)
Fixpoint split (sep : ascii) (s : string) : list string :=
  match s with
  | EmptyString => [EmptyString]
  | String c r =>
      if Ascii.eqb c sep then EmptyString :: split sep r
      else
        match split sep r with
        | x :: xs => String c x :: xs
        | [] => [String c EmptyString]
        end
  end.

Module Auth.
(** What [authMiddleware] does with a request: one of the two 401 answers,
    or [next()] with the decoded token in [req.user]. *)
Inductive result (D : Type) :=
| NoToken        (* 401, 'Acesso negado. Nenhum token fornecido.' *)
| InvalidToken   (* 401, 'Token invalido.' *)
| Next (user : D).
Arguments NoToken {D}.
Arguments InvalidToken {D}.
Arguments Next {D} user.
End Auth.

(** [authMiddleware]; [verify token] stands for
    [jwt.verify(token, config.jwtSecret)], [None] when it throws. *)
Definition authMiddleware {D} (verify : string -> option D)
    (authorization : option string) : Auth.result D :=
  match truthy authorization with
  | None => Auth.NoToken
  | Some authHeader =>
      if startsWith authHeader "Bearer " then
        match split " " authHeader !! 1%nat with
        | Some token =>
            match verify token with
            | Some decoded => Auth.Next decoded
            | None => Auth.InvalidToken
            end
        | None => Auth.InvalidToken
        end
      else Auth.NoToken
  end.

(** Does [s] contain [w]: what [/w/.test(s)] decides for a pattern without
    special characters. *)
Fixpoint includes (s w : string) : bool :=
  startsWith s w
  || match s with
     | EmptyString => false
     | String _ r => includes r w
     end.

(** The alternatives of [/jpeg|jpg|png|gif|webp/]. *)
Definition filetypes : list string := ["jpeg"; "jpg"; "png"; "gif"; "webp"].

(** [filetypes.test(s)] *)
Definition filetypes_test (s : string) : bool :=
  existsb (includes s) filetypes.

(** The [fileFilter] of the upload: [true] for [cb(null, true)], [false]
    for [cb(new Error(...))].  [extname] is the value of
    [path.extname(file.originalname).toLowerCase()]. *)
Definition fileFilter (mimetype extname : string) : bool :=
  filetypes_test mimetype && filetypes_test extname.

(** ** The state of the WhatsApp connection ([server.js]) *)

Module Wa.
(** The values of [connectionState.status]. *)
Inductive Status := initializing | scan | disconnected | logged_out | connected.
(* [scan] is the status 'qr' *)

(** [connectionState] *)
Record State := mkState { status : Status; qr : option string }.

(** [lastDisconnect], as far as the handler reads it:
    [lastDisconnect.error?.output?.statusCode]. *)
Record Disconnect := mkDisconnect { statusCode : option Z }.

(** The argument of the 'connection.update' listener. *)
Record Update := mkUpdate {
  connection : option string;
  lastDisconnect : option Disconnect;
  update_qr : option string
}.

(** What one run of the listener leaves: the state, whether it called
    [startBaileys] again, and whether it raised. *)
Record Step := mkStep { state : State; restarted : bool; raised : bool }.

(** [let waConnectionState = { status: 'initializing', qr: null }] *)
Definition initial : State := mkState initializing None.

(** The listener of 'connection.update' (lines 28-60 of [server.js]);
    [loggedOut] is [DisconnectReason.loggedOut]. *)
Definition onUpdate (loggedOut : Z) (st : State) (u : Update) : Step :=
  let st :=
    match truthy (update_qr u) with
    | Some q => mkState scan (Some q)
    | None => st
    end in
  if bool_decide (connection u = Some "close") then
    match lastDisconnect u with
    | None => mkStep st false true     (* reading [.error] of undefined *)
    | Some d =>
        let shouldReconnect := negb (bool_decide (statusCode d = Some loggedOut)) in
        let st := mkState disconnected (qr st) in
        if shouldReconnect then mkStep st true false
        else mkStep (mkState logged_out (qr st)) false false
    end
  else if bool_decide (connection u = Some "open") then
    mkStep (mkState connected None) false false
  else mkStep st false false.

(** The state after a sequence of updates; the listener of a restarted
    client works on the same state object. *)
Definition run (loggedOut : Z) (st : State) (us : list Update) : State :=
  foldl (fun st u => state (onUpdate loggedOut st u)) st us.

(** A state whose QR code fits its status: none while connected, one that
    is not empty while the status asks for a scan. *)
Definition consistent (st : State) : Prop :=
  (status st = connected -> qr st = None)
  ∧ (status st = scan -> ∃ q, qr st = Some q ∧ q ≠ EmptyString).
End Wa.

(** ** More notions the properties are stated with *)

(** No product of the catalog has a negative stock. *)
Definition stockNonneg (cat : gmap string Product.t) : Prop :=
  map_Forall (fun _ p => (0 <= Product.stock p)%Z) cat.

(** A string without the character [c]. *)
Definition without (c : ascii) (s : string) : Prop :=
  Forall (fun x => x ≠ c) (list_ascii_of_string s).

(** [w] occurs in [s]. *)
Definition occursIn (w s : string) : Prop :=
  ∃ pre post, s = pre ++ w ++ post.

(** The string of an order status. *)
Definition statusName (s : OrderStatus) : string :=
  match s with
  | processing => "processing"
  | shipped => "shipped"
  | delivered => "delivered"
  | cancelled => "cancelled"
  end.

(** Two order documents that differ in their order status at most. *)
Definition sameButOrderStatus (a b : Order.t) : Prop :=
  Order.set_orderStatus a (Order.orderStatus b) = b.

(** Two order documents with the same fields of identity: the fields no
    handler writes after the order was created. *)
Definition sameIdentity (a b : Order.t) : Prop :=
  Order._id a = Order._id b
  ∧ Order.customerInfo a = Order.customerInfo b
  ∧ Order.products a = Order.products b
  ∧ Order.totalAmount a = Order.totalAmount b
  ∧ Order.paymentMethod a = Order.paymentMethod b
  ∧ Order.trackingId a = Order.trackingId b
  ∧ Mpesa.thirdPartyReference (Order.mpesaDetails a)
    = Mpesa.thirdPartyReference (Order.mpesaDetails b).

(** The address [sendWhatsAppMessage] writes to for a customer. *)
Definition addressOf (c : Customer.t) : string :=
  replace_non_digits (Customer.phone c) ++ "@s.whatsapp.net".

(** A sample verifier of tokens: one token is good. *)
Definition sampleVerify (token : string) : option string :=
  if bool_decide (token = "eyJhbGciOi.eyJpZCI6.c2lnbg") then Some "admin" else None.

(** The orders of [after] are those of [before], each with the same
    fields of identity and in the same place, followed by new ones. *)
Definition keepsOrders (before after : list Order.t) : Prop :=
  ∃ old new, after = (old ++ new)%list ∧ Forall2 sameIdentity before old.

(** An outcome that sends nothing, or one message, through an initialised
    client, to the customer of an order of the resulting store. *)
Definition notifiesCustomer (env : Env) (out : Outcome) : Prop :=
  notifications out = []
  ∨ (sock env = true
     ∧ ∃ o m, o ∈ orders (store out)
              ∧ notifications out
                = [Notification.mk (addressOf (Order.customerInfo o)) m]).

(** ** More sample data *)

Module Scenario.
(** A provider that refuses every request with a response. *)
Definition refusal : Axios.errdata :=
  Axios.mkErr (Some "") (Some "Insufficient balance").

Definition refusing : Env :=
  mkEnv 1700000000001 "65f0c1" "65f0c2" "171717"
    (fun _ => Axios.RejectedResponse 422 refusal) true.


(** A cart that takes the whole stock of the sample product. *)
Definition wholeStock : list CartItem.t := [CartItem.mk "P1" 5].


(** The store after two mobile-money checkouts served within the same
    millisecond. *)
Definition collided : Store :=
  store (createOrder Sample.env2 Sample.afterMpesa
           (Sample.checkout "Mpesa" Sample.cart)).
End Scenario.

(** ** The running total of the checkout on doubles *)

Module Double.
Import PrimFloat.








End Double.



(** A shop with three products, priced in whole units. *)
Module Shop.
Definition db : Store :=
  mkStore (<["P3" := Product.mk "Ambar" 9999 3]>
             (<["P2" := Product.mk "Rosa Negra" 2999 4]>
                {[ "P1" := Product.mk "Oud Royal" 1999 5 ]})) [].

(** One, two and three units of the three products. *)
Definition cart : list CartItem.t :=
  [CartItem.mk "P1" 1; CartItem.mk "P2" 2; CartItem.mk "P3" 3].

End Shop.

(** * Properties *)

(** ** Strings *)

Lemma replace_non_digits_spec s :
  list_ascii_of_string (replace_non_digits s) = digitsOf s.
Proof.
  unfold digitsOf. induction s as [|c r IH]; simpl; [done|].
  destruct (is_digit c); simpl; by rewrite IH.
Qed.

Lemma length_list_ascii s : length (list_ascii_of_string s) = String.length s.
Proof. induction s; simpl; congruence. Qed.

Lemma startsWith_take s p :
  startsWith s p = true ↔
  take (String.length p) (list_ascii_of_string s) = list_ascii_of_string p.
Proof.
  revert s. induction p as [|a p IH]; intros s; simpl.
  - rewrite take_0. by split.
  - destruct s as [|b s]; simpl; [done|].
    destruct (Ascii.eqb_spec a b) as [->|Hne].
    + rewrite IH. split; [congruence|]. by intros [= ->].
    + split; [done|]. intros [= ? _]. congruence.
Qed.

Lemma substring1_spec s :
  list_ascii_of_string
    (if startsWith s "0" then substring1 s else s)
  = dropLeadingZero (list_ascii_of_string s).
Proof.
  destruct s as [|c r]; simpl; [done|].
  destruct (Ascii.eqb_spec "0"%char c) as [<-|Hne]; simpl; [done|].
  unfold dropLeadingZero.
  destruct c as [[] [] [] [] [] [] [] []]; try done.
Qed.

Lemma string_of_list_ascii_app_258 s :
  string_of_list_ascii (countryCode ++ list_ascii_of_string s) = "258" ++ s.
Proof. simpl. by rewrite string_of_list_ascii_of_string. Qed.

(** The shapes, decided as the code decides them. *)
Lemma localShape_test s :
  (String.length s =? 9)%nat && (startsWith s "84" || startsWith s "85") = true
  ↔ localShape (list_ascii_of_string s).
Proof.
  unfold localShape, carrierPrefixes.
  rewrite andb_true_iff, orb_true_iff, Nat.eqb_eq, !startsWith_take,
    length_list_ascii. simpl.
  rewrite !elem_of_cons, elem_of_nil. tauto.
Qed.

Lemma internationalShape_test s :
  (String.length s =? 12)%nat && startsWith s "258" = true
  ↔ internationalShape (list_ascii_of_string s).
Proof.
  unfold internationalShape.
  rewrite andb_true_iff, Nat.eqb_eq, startsWith_take, length_list_ascii.
  done.
Qed.

(** C5. [normalizeMpesaNumber] follows the normalisation rule on every
    input: it keeps the digits only, drops one leading zero, puts the
    country code 258 before nine digits that start with 84 or 85, returns
    twelve digits that start with 258 as they are, and raises
    [InvalidPhoneNumber] for every other shape.  In particular
    "084 123 4567" becomes "258841234567", "258851234567" is returned
    unchanged and "12345" is refused. *)
Theorem normalizeMpesaNumber_rule :
  (∀ phone, Normalizes phone (normalizeMpesaNumber phone))
  ∧ normalizeMpesaNumber "084 123 4567" = inr "258841234567"
  ∧ normalizeMpesaNumber "258851234567" = inr "258851234567"
  ∧ normalizeMpesaNumber "12345" = inl (InvalidPhoneNumber "12345").
Proof.
  split; [|by repeat split].
  intros phone. unfold normalizeMpesaNumber.
  set (clean := if startsWith (replace_non_digits phone) "0"
                then substring1 (replace_non_digits phone)
                else replace_non_digits phone).
  assert (Hclean : list_ascii_of_string clean = dropLeadingZero (digitsOf phone)).
  { unfold clean. by rewrite substring1_spec, replace_non_digits_spec. }
  destruct ((String.length clean =? 9)%nat
            && (startsWith clean "84" || startsWith clean "85")) eqn:Hloc.
  - apply localShape_test in Hloc. rewrite Hclean in Hloc.
    rewrite <- string_of_list_ascii_app_258, Hclean.
    by apply normalizes_local.
  - destruct ((String.length clean =? 12)%nat && startsWith clean "258") eqn:Hint.
    + apply internationalShape_test in Hint. rewrite Hclean in Hint.
      rewrite <- (string_of_list_ascii_of_string clean), Hclean.
      by apply normalizes_international.
    + apply normalizes_invalid; rewrite <- Hclean.
      * rewrite <- localShape_test. by rewrite Hloc.
      * rewrite <- internationalShape_test. by rewrite Hint.
Qed.

(** ** The catalog *)


(** What one iteration of the cart loop does when it does not raise. *)
Lemma reserve_inr acc item acc' :
  reserve acc item = inr acc' ->
  ∃ p,
    view acc !! CartItem.productId item = Some p
    ∧ (CartItem.quantity item <= Product.stock p)%Z
    ∧ view acc' =
        <[CartItem.productId item :=
            Product.set_stock p (Product.stock p - CartItem.quantity item)]> (view acc)
    ∧ total acc' = (total acc + Product.price p * CartItem.quantity item)%Z
    ∧ productDetails acc' =
        (productDetails acc ++
          [LineItem.mk (CartItem.productId item) (CartItem.quantity item)
             (Product.price p)])%list.
Proof.
  unfold reserve. intros H.
  destruct (view acc !! CartItem.productId item) as [p|] eqn:Hp; [|done].
  destruct (Z.ltb_spec (Product.stock p) (CartItem.quantity item)); [done|].
  injection H as <-. exists p. simpl. repeat split; try done; lia.
Qed.



(** ** Checkout *)


Lemma saveOrder_inr o o' : saveOrder o = inr o' -> o' = o ∧ validate o = true.
Proof. unfold saveOrder. destruct (validate o); [|done]. by intros [= <-]. Qed.

(** The order the payment branch saves last differs from the one it was
    given in the payment status and the provider's fields only. *)
Lemma payment_inr env o sent o' r :
  payment env o = (sent, inr (o', r)) ->
  Order._id o' = Order._id o
  ∧ Order.customerInfo o' = Order.customerInfo o
  ∧ Order.products o' = Order.products o
  ∧ Order.totalAmount o' = Order.totalAmount o
  ∧ Order.paymentMethod o' = Order.paymentMethod o
  ∧ Order.orderStatus o' = Order.orderStatus o
  ∧ Order.trackingId o' = Order.trackingId o
  ∧ Mpesa.thirdPartyReference (Order.mpesaDetails o')
    = Mpesa.thirdPartyReference (Order.mpesaDetails o).
Proof.
  unfold payment. intros H.
  destruct (bool_decide (Order.paymentMethod o = "Mpesa")).
  - destruct (normalizeMpesaNumber _) as [e|msisdn]; [done|].
    destruct (mpesaApi env _) as [d| |]; [|done..].
    injection H as _ H.
    destruct (saveOrder _) as [e|o1] eqn:Hs; [done|].
    apply saveOrder_inr in Hs as [-> _]. by injection H as <- _.
  - injection H as _ H.
    destruct (saveOrder _) as [e|o1] eqn:Hs; [done|].
    apply saveOrder_inr in Hs as [-> _]. by injection H as <- _.
Qed.

(** What the transaction has done when it reaches [commitTransaction]. *)
Lemma transaction_inr env db ci items pm sent tx o r :
  transaction env db ci items pm = (sent, inr (tx, o, r)) ->
  ∃ c,
    reserveAll items (mkCart (catalog db) 0 []) = inr c
    ∧ validate (newOrder env ci c pm) = true
    ∧ payment env (newOrder env ci c pm) = (sent, inr (o, r))
    ∧ tx = mkStore (view c) (orders db ++ [o]).
Proof.
  unfold transaction. intros H.
  destruct (reserveAll items _) as [e|c] eqn:Hc; [done|]. simpl in H.
  destruct (saveOrder _) as [e|o0] eqn:Hs; [done|]. simpl in H.
  apply saveOrder_inr in Hs as [-> Hv].
  destruct (payment env _) as [sent' [e|[o' r']]] eqn:Hp; [done|].
  injection H as <- <- <- <-. by exists c.
Qed.

Lemma transaction_reserve_inl env db ci items pm e :
  reserveAll items (mkCart (catalog db) 0 []) = inl e ->
  transaction env db ci items pm = ([], inl e).
Proof. unfold transaction. by intros ->. Qed.

(** The three ways [createOrder] ends. *)
Lemma createOrder_incomplete env db body :
  validated body = None ->
  createOrder env db body
  = mkOutcome (Some (Http.mk 400 Http.IncompleteOrder)) db [] [].
Proof. unfold createOrder. by intros ->. Qed.

Lemma createOrder_aborted env db body ci items pm sent e :
  validated body = Some (ci, items, pm) ->
  transaction env db ci items pm = (sent, inl e) ->
  createOrder env db body
  = mkOutcome (catchCreateOrder TxnInProgress e) db sent [].
Proof. unfold createOrder. by intros -> ->. Qed.

Lemma createOrder_committed env db body ci items pm sent tx o r :
  validated body = Some (ci, items, pm) ->
  transaction env db ci items pm = (sent, inr (tx, o, r)) ->
  store (createOrder env db body) = tx
  ∧ requests (createOrder env db body) = sent
  ∧ response (createOrder env db body)
    = if bool_decide (pm = "Mpesa") then None
      else Some (Http.mk 201 (Http.Created (Order._id o) (Order.trackingId o) None)).
Proof.
  unfold createOrder, createdBody. intros -> ->.
  destruct (bool_decide (pm = "Mpesa")); done.
Qed.

(** A mobile-money checkout that the provider acknowledges commits, and
    then raises while it builds the answer of line 444: the order and the
    stock decrement stay, and the client receives no response. *)
Example createOrder_mpesa_commits_then_raises :
  let out := createOrder Sample.env Sample.db (Sample.checkout "Mpesa" Sample.cart) in
  response out = None
  ∧ stockOf (catalog (store out)) "P1" = 3%Z
  ∧ length (orders (store out)) = 1%nat.
Proof. repeat split; vm_compute; reflexivity. Qed.

Lemma catchCreateOrder_in_progress e :
  ∃ b, catchCreateOrder TxnInProgress e = Some (Http.mk 500 b).
Proof. destruct e as [| | | |[[]|]| | |]; simpl; eauto. Qed.




(** C1 on the code.  A mobile-money checkout that the provider
    acknowledges fails at a later step and is persisted all the same.  The
    transaction commits (line 438); building the answer then raises,
    because the name [mpesaResponse] of line 448 is out of scope; the
    [catch] block cannot abort a committed transaction and raises in
    turn, so the client gets no answer.  The order and the stock
    decrement stay in the store. *)
Theorem createOrder_failure_after_commit :
  let out := createOrder Sample.env Sample.db (Sample.checkout "Mpesa" Sample.cart) in
  (∀ o, createdBody o "Mpesa" = inl (ReferenceError "mpesaResponse"))
  ∧ abortTransaction TxnCommitted = inl MongoTransactionError
  ∧ response out = None
  ∧ orders Sample.db = []
  ∧ ((fun o => (Order.paymentMethod o, Order.paymentStatus o, Order.products o))
       <$> orders (store out))
    = [("Mpesa", pending, [LineItem.mk "P1" 2 100])]
  ∧ stockOf (catalog Sample.db) "P1" = 5%Z
  ∧ stockOf (catalog (store out)) "P1" = 3%Z
  ∧ store out ≠ Sample.db.
Proof.
  repeat split; try (vm_compute; reflexivity).
  intros H. apply (f_equal (fun s => stockOf (catalog s) "P1")) in H.
  vm_compute in H. discriminate.
Qed.

(** ** Lookups in the order collection *)

Lemma findOne_Some ref os i o :
  findOne ref os = Some (i, o) ->
  os !! i = Some o
  ∧ Mpesa.thirdPartyReference (Order.mpesaDetails o) = Some ref.
Proof.
  revert i. induction os as [|o0 os IH]; intros i H; simpl in H; [done|].
  case_bool_decide as Href.
  - by injection H as <- <-.
  - destruct (findOne ref os) as [[j o']|]; [|done]. simpl in H.
    injection H as <- <-. by apply IH.
Qed.

Lemma findOne_None ref os :
  findOne ref os = None ↔
  Forall (fun o => Mpesa.thirdPartyReference (Order.mpesaDetails o) ≠ Some ref) os.
Proof.
  induction os as [|o0 os IH]; simpl.
  - split; [constructor|done].
  - case_bool_decide as Href.
    + split; [done|]. by intros [? _]%Forall_cons.
    + rewrite Forall_cons, <- IH.
      destruct (findOne ref os) as [[j o']|]; simpl; intuition congruence.
Qed.

(** Writing back a document that kept its reference does not move it. *)
Lemma findOne_insert ref os i o o' :
  findOne ref os = Some (i, o) ->
  Mpesa.thirdPartyReference (Order.mpesaDetails o') = Some ref ->
  findOne ref (<[i := o']> os) = Some (i, o').
Proof.
  revert i. induction os as [|o0 os IH]; intros i H Href; simpl in H; [done|].
  case_bool_decide as Href0.
  - injection H as <- <-. simpl. by rewrite bool_decide_eq_true_2.
  - destruct (findOne ref os) as [[j o1]|] eqn:Hf; [|done]. simpl in H.
    injection H as <- <-. simpl. rewrite bool_decide_eq_false_2 by done.
    by rewrite (IH j).
Qed.

Lemma findById_Some id os i o :
  findById id os = Some (i, o) -> os !! i = Some o ∧ Order._id o = id.
Proof.
  revert i. induction os as [|o0 os IH]; intros i H; simpl in H; [done|].
  case_bool_decide as Hid.
  - by injection H as <- <-.
  - destruct (findById id os) as [[j o']|]; [|done]. simpl in H.
    injection H as <- <-. by apply IH.
Qed.

(** ** Payment callback *)

Lemma validate_reconciled o body : validate (reconciled o body) = validate o.
Proof. unfold reconciled. by case_bool_decide. Qed.

Lemma reconciled_idemp o body :
  reconciled (reconciled o body) body = reconciled o body.
Proof. unfold reconciled. by case_bool_decide. Qed.

Lemma reconciled_reference o body :
  Mpesa.thirdPartyReference (Order.mpesaDetails (reconciled o body))
  = Mpesa.thirdPartyReference (Order.mpesaDetails o).
Proof. unfold reconciled. by case_bool_decide. Qed.

Lemma reconciled_products o body :
  Order.products (reconciled o body) = Order.products o.
Proof. unfold reconciled. by case_bool_decide. Qed.

Lemma mpesaCallback_missing env db body :
  truthy (Callback.input_ThirdPartyReference body) = None ->
  mpesaCallback env db body
  = mkOutcome (Some (Http.mk 400 Http.MissingReference)) db [] [].
Proof. unfold mpesaCallback. by intros ->. Qed.

Lemma mpesaCallback_unknown env db body ref :
  truthy (Callback.input_ThirdPartyReference body) = Some ref ->
  findOne ref (orders db) = None ->
  mpesaCallback env db body = mkOutcome (Some (Http.mk 404 Http.Empty)) db [] [].
Proof. unfold mpesaCallback. by intros -> ->. Qed.

Lemma mpesaCallback_found env db body ref i o :
  truthy (Callback.input_ThirdPartyReference body) = Some ref ->
  findOne ref (orders db) = Some (i, o) ->
  store (mpesaCallback env db body)
  = mkStore (restocked db o body)
      (if validate o then <[i := reconciled o body]> (orders db) else orders db)
  ∧ response (mpesaCallback env db body)
    = Some (if validate o then Http.mk 200 Http.CallbackProcessed
            else Http.mk 500 Http.Empty).
Proof.
  unfold mpesaCallback. intros -> ->.
  pose proof (validate_reconciled o body) as Hv.
  unfold reconciled, restocked, saveOrder in *.
  case_bool_decide; rewrite Hv; by destruct (validate o).
Qed.

(** The stock a product has after the restoring loop: each line of the
    order that names the product has added its quantity, once. *)
Lemma restoreStock_lookup items : ∀ (cat : gmap string Product.t) id,
  restoreStock items cat !! id = credit (orderedOf items id) <$> cat !! id.
Proof.
  unfold restoreStock.
  induction items as [|l items IH]; intros cat id; simpl.
  - destruct (cat !! id) as [[n p s]|]; simpl; [|done].
    unfold credit, Product.set_stock. simpl. do 2 f_equal. lia.
  - rewrite IH. unfold incStock. rewrite lookup_alter.
    case_bool_decide as Hl; case_decide; subst; try done.
    destruct (cat !! LineItem.product l) as [[n p s]|]; simpl; [|done].
    unfold credit, Product.set_stock. simpl. do 2 f_equal. lia.
Qed.

(** X26. A callback whose result code is not the success code INS-0, for a
    reference that finds a stored order, reconciles the order it finds,
    which is the oldest one that carries the reference (whatever its
    payment status, so in particular a pending one): it sets the order's
    payment status to failed and its order status to cancelled, records
    the result code and description in the order's provider fields,
    leaves the rest of the order and the other orders as they were, and
    adds to the stock of every product the quantities of the order's
    lines that name it, each line once. *)
Theorem mpesaCallback_failure env db body ref i o :
  truthy (Callback.input_ThirdPartyReference body) = Some ref ->
  findOne ref (orders db) = Some (i, o) ->
  validate o = true ->
  Callback.input_ResultCode body ≠ Some "INS-0" ->
  let out := mpesaCallback env db body in
  let o' := reconciled o body in
  orders (store out) = <[i := o']> (orders db)
  ∧ Order.paymentStatus o' = failed
  ∧ Order.orderStatus o' = cancelled
  ∧ Mpesa.responseCode (Order.mpesaDetails o') = Callback.input_ResultCode body
  ∧ Mpesa.responseDescription (Order.mpesaDetails o') = Callback.input_ResultDesc body
  ∧ Mpesa.thirdPartyReference (Order.mpesaDetails o') = Some ref
  ∧ Order.products o' = Order.products o
  ∧ Order.totalAmount o' = Order.totalAmount o
  ∧ (∀ id, catalog (store out) !! id
           = credit (orderedOf (Order.products o) id) <$> catalog db !! id)
  ∧ response out = Some (Http.mk 200 Http.CallbackProcessed).
Proof.
  intros Href Hfind Hvalid Hcode. simpl.
  destruct (mpesaCallback_found env db body ref i o Href Hfind) as [-> ->].
  destruct (findOne_Some _ _ _ _ Hfind) as [_ Hr].
  rewrite Hvalid. unfold restocked, reconciled.
  rewrite bool_decide_eq_false_2 by done. simpl.
  repeat split; try done. intros id. apply restoreStock_lookup.
Qed.

(** A failed payment for the order of two units of a product whose stock
    the checkout had lowered from 5 to 3. *)
Lemma mpesaCallback_failure_witness :
  stockOf (catalog Sample.afterMpesa) "P1" = 3%Z
  ∧ stockOf (catalog (store (mpesaCallback Sample.env Sample.afterMpesa
                               Sample.failure))) "P1" = 5%Z
  ∧ (Order.paymentStatus <$>
       orders (store (mpesaCallback Sample.env Sample.afterMpesa Sample.failure)))
    = [failed].
Proof.
  split; [reflexivity|].
  edestruct (mpesaCallback_failure Sample.env Sample.afterMpesa Sample.failure
               Sample.reference 0%nat)
    as (Horders & Hpaid & _ & _ & _ & _ & _ & _ & Hstock & _);
    [reflexivity|vm_compute; reflexivity|reflexivity|discriminate|].
  split.
  - unfold stockOf. rewrite Hstock. reflexivity.
  - rewrite Horders. reflexivity.
Defined.

(** C2 on the code.  Two mobile-money checkouts served within the same
    millisecond leave two pending orders with one reference.  The failure
    callback for that reference reconciles the first of them only: the
    second stays pending and in processing and its two units are not
    given back (stock 1 before, 3 after, 5 before the two checkouts), and
    a second delivery restocks the lines of the first order again while
    the second order is still pending. *)
Theorem mpesaCallback_failure_skips_later_order :
  let once := store (mpesaCallback Sample.env Scenario.collided Sample.failure) in
  let twice := store (mpesaCallback Sample.env once Sample.failure) in
  ((fun o => (Order._id o, Order.paymentMethod o,
              Mpesa.thirdPartyReference (Order.mpesaDetails o),
              Order.paymentStatus o, Order.orderStatus o))
     <$> orders Scenario.collided)
  = [("65f0a1", "Mpesa", Some Sample.reference, pending, processing);
     ("65f0b1", "Mpesa", Some Sample.reference, pending, processing)]
  ∧ ((fun o => (Order._id o, Order.paymentStatus o, Order.orderStatus o))
       <$> orders once)
    = [("65f0a1", failed, cancelled); ("65f0b1", pending, processing)]
  ∧ stockOf (catalog Sample.db) "P1" = 5%Z
  ∧ stockOf (catalog Scenario.collided) "P1" = 1%Z
  ∧ stockOf (catalog once) "P1" = 3%Z
  ∧ ((fun o => (Order._id o, Order.paymentStatus o, Order.orderStatus o))
       <$> orders twice)
    = [("65f0a1", failed, cancelled); ("65f0b1", pending, processing)]
  ∧ stockOf (catalog twice) "P1" = 5%Z.
Proof. repeat split; vm_compute; reflexivity. Qed.

(** C6, as the code has it.  A callback with the success code INS-0, for a
    reference that finds a stored order, sets the order's payment status to
    paid and its order status to processing whatever the order status was
    before (also for an order already shipped, delivered or cancelled),
    and changes no product of the catalog. *)
Theorem mpesaCallback_success env db body ref i o :
  truthy (Callback.input_ThirdPartyReference body) = Some ref ->
  findOne ref (orders db) = Some (i, o) ->
  validate o = true ->
  Callback.input_ResultCode body = Some "INS-0" ->
  let out := mpesaCallback env db body in
  let o' := reconciled o body in
  orders (store out) = <[i := o']> (orders db)
  ∧ Order.paymentStatus o' = paid
  ∧ Order.orderStatus o' = processing
  ∧ Order.products o' = Order.products o
  ∧ Order.totalAmount o' = Order.totalAmount o
  ∧ catalog (store out) = catalog db
  ∧ response out = Some (Http.mk 200 Http.CallbackProcessed).
Proof.
  intros Href Hfind Hvalid Hcode. simpl.
  destruct (mpesaCallback_found env db body ref i o Href Hfind) as [-> ->].
  rewrite Hvalid. unfold restocked, reconciled.
  rewrite bool_decide_eq_true_2 by done. done.
Qed.

Lemma mpesaCallback_success_witness :
  ((fun o => (Order.paymentStatus o, Order.orderStatus o)) <$>
     orders (store (mpesaCallback Sample.env Sample.afterMpesa Sample.success)))
  = [(paid, processing)]
  ∧ catalog (store (mpesaCallback Sample.env Sample.afterMpesa Sample.success))
    = catalog Sample.afterMpesa.
Proof.
  edestruct (mpesaCallback_success Sample.env Sample.afterMpesa Sample.success
               Sample.reference 0%nat)
    as (Horders & _ & _ & _ & _ & Hcat & _);
    [reflexivity|vm_compute; reflexivity|reflexivity|reflexivity|].
  split; [|exact Hcat]. rewrite Horders. reflexivity.
Defined.

(** C6, as stated, fails: an order that is still unpaid and already shipped
    is moved back to processing by the success callback. *)
Lemma mpesaCallback_success_reverts_shipped :
  ((fun o => (Order.paymentStatus o, Order.orderStatus o)) <$> orders Sample.shippedUnpaid)
  = [(pending, shipped)]
  ∧ ((fun o => (Order.paymentStatus o, Order.orderStatus o)) <$>
       orders (store (mpesaCallback Sample.env Sample.shippedUnpaid Sample.success)))
    = [(paid, processing)].
Proof. split; vm_compute; reflexivity. Qed.

(** C7, as the code has it.  A callback whose reference matches no stored
    order is answered with status 404 and an empty body, and changes
    neither the orders nor the catalog, and sends no notification; a
    callback without a reference is answered with status 400. *)
Theorem mpesaCallback_unknown_reference env db body :
  let out := mpesaCallback env db body in
  (∀ ref,
     truthy (Callback.input_ThirdPartyReference body) = Some ref ->
     Forall (fun o => Mpesa.thirdPartyReference (Order.mpesaDetails o) ≠ Some ref)
       (orders db) ->
     response out = Some (Http.mk 404 Http.Empty)
     ∧ store out = db ∧ notifications out = [])
  ∧ (truthy (Callback.input_ThirdPartyReference body) = None ->
     response out = Some (Http.mk 400 Http.MissingReference)
     ∧ store out = db ∧ notifications out = []).
Proof.
  simpl. split.
  - intros ref Href Hnone%findOne_None.
    by rewrite (mpesaCallback_unknown _ _ _ _ Href Hnone).
  - intros Href. by rewrite (mpesaCallback_missing _ _ _ Href).
Qed.

Lemma mpesaCallback_unknown_reference_witness :
  response (mpesaCallback Sample.env Sample.afterMpesa
              (Callback.mk (Some "PERFUME_0") (Some "INS-0") None))
  = Some (Http.mk 404 Http.Empty)
  ∧ response (mpesaCallback Sample.env Sample.afterMpesa
                (Callback.mk None (Some "INS-0") None))
    = Some (Http.mk 400 Http.MissingReference).
Proof.
  split.
  - destruct (mpesaCallback_unknown_reference Sample.env Sample.afterMpesa
                (Callback.mk (Some "PERFUME_0") (Some "INS-0") None)) as [H _].
    apply (H "PERFUME_0"); [reflexivity|].
    repeat constructor. vm_compute. discriminate.
  - destruct (mpesaCallback_unknown_reference Sample.env Sample.afterMpesa
                (Callback.mk None (Some "INS-0") None)) as [_ H].
    apply H. reflexivity.
Defined.

(** C7, as stated, fails: the answer to a callback for an unknown reference
    has status 404, not 200. *)
Lemma mpesaCallback_unknown_not_200 :
  findOne "PERFUME_0" (orders Sample.afterMpesa) = None
  ∧ (Http.status <$>
       response (mpesaCallback Sample.env Sample.afterMpesa
                   (Callback.mk (Some "PERFUME_0") (Some "INS-0") None)))
    = Some 404%Z
  ∧ (Http.status <$>
       response (mpesaCallback Sample.env Sample.afterMpesa
                   (Callback.mk (Some "PERFUME_0") (Some "INS-0") None)))
    ≠ Some 200%Z.
Proof. repeat split; [vm_compute; reflexivity..|vm_compute; discriminate]. Qed.

(** C3, as the code has it.  Delivering the same callback a second time
    leaves the orders exactly as the first delivery left them; a repeated
    success callback leaves the catalog as it was; a repeated failure
    callback for a stored order adds the quantities of the order's lines to
    the stock once more: the handler does not look at the payment status
    it finds. *)
Theorem mpesaCallback_twice env db body :
  let once := store (mpesaCallback env db body) in
  let twice := store (mpesaCallback env once body) in
  orders twice = orders once
  ∧ (Callback.input_ResultCode body = Some "INS-0" ->
     catalog once = catalog db ∧ catalog twice = catalog db)
  ∧ (∀ ref i o,
       truthy (Callback.input_ThirdPartyReference body) = Some ref ->
       findOne ref (orders db) = Some (i, o) ->
       Callback.input_ResultCode body ≠ Some "INS-0" ->
       ∀ id, catalog twice !! id
             = credit (orderedOf (Order.products o) id) <$> catalog once !! id).
Proof.
  simpl.
  destruct (truthy (Callback.input_ThirdPartyReference body)) as [ref|] eqn:Href.
  2:{ rewrite (mpesaCallback_missing _ _ _ Href). simpl.
      rewrite (mpesaCallback_missing _ _ _ Href). simpl. by repeat split. }
  destruct (findOne ref (orders db)) as [[i o]|] eqn:Hfind.
  2:{ rewrite (mpesaCallback_unknown _ _ _ _ Href Hfind). simpl.
      rewrite (mpesaCallback_unknown _ _ _ _ Href Hfind). simpl.
      repeat split; try done. intros ref' i o Href' Hf. congruence. }
  destruct (mpesaCallback_found env db body ref i o Href Hfind) as [Hs _].
  rewrite Hs.
  assert (Hfind' : ∃ o1,
    findOne ref (if validate o then <[i := reconciled o body]> (orders db)
                 else orders db) = Some (i, o1)
    ∧ (if validate o then <[i := reconciled o1 body]>
                            (<[i := reconciled o body]> (orders db))
       else orders db)
      = (if validate o then <[i := reconciled o body]> (orders db) else orders db)
    ∧ validate o1 = validate o
    ∧ Order.products o1 = Order.products o).
  { destruct (validate o) eqn:Hv.
    - exists (reconciled o body). split; [|split; [|split]].
      + apply (findOne_insert _ _ _ o); [done|].
        rewrite reconciled_reference. by apply (findOne_Some _ _ _ _ Hfind).
      + by rewrite reconciled_idemp, list_insert_insert_eq.
      + rewrite validate_reconciled. done.
      + apply reconciled_products.
    - by exists o. }
  destruct Hfind' as (o1 & Hfind1 & Hsame & Hv1 & Hp1).
  set (once := mkStore _ _) in *.
  destruct (mpesaCallback_found env once body ref i o1 Href Hfind1) as [Hs2 _].
  rewrite Hs2. unfold once at 2 3. simpl. rewrite Hv1.
  split; [|split].
  - by destruct (validate o).
  - intros Hcode. unfold restocked, once. simpl. unfold restocked.
    by rewrite !bool_decide_eq_true_2.
  - intros ref' i' o' Href' Hfind' Hcode id.
    injection Href' as <-. rewrite Hfind in Hfind'. injection Hfind' as <- <-.
    unfold restocked at 1. rewrite bool_decide_eq_false_2 by done.
    rewrite restoreStock_lookup, Hp1. done.
Qed.

Lemma mpesaCallback_twice_witness :
  let once := store (mpesaCallback Sample.env Sample.afterMpesa Sample.failure) in
  let twice := store (mpesaCallback Sample.env once Sample.failure) in
  orders twice = orders once ∧ stockOf (catalog twice) "P1" = 7%Z.
Proof.
  destruct (mpesaCallback_twice Sample.env Sample.afterMpesa Sample.failure)
    as (Horders & _ & Hstock).
  split; [exact Horders|].
  unfold stockOf.
  erewrite (Hstock Sample.reference 0%nat); cycle 1;
    [reflexivity|vm_compute; reflexivity|discriminate|reflexivity].
Defined.

(** C3, as stated, fails: the second delivery of a failure callback finds
    the order with payment status failed and still adds its quantities to
    the stock: 3 after the checkout, 5 after the first delivery, 7 after
    the second. *)
Lemma mpesaCallback_twice_restores_twice :
  let once := store (mpesaCallback Sample.env Sample.afterMpesa Sample.failure) in
  let twice := store (mpesaCallback Sample.env once Sample.failure) in
  stockOf (catalog Sample.db) "P1" = 5%Z
  ∧ stockOf (catalog Sample.afterMpesa) "P1" = 3%Z
  ∧ (Order.paymentStatus <$> orders once) = [failed]
  ∧ stockOf (catalog once) "P1" = 5%Z
  ∧ stockOf (catalog twice) "P1" = 7%Z
  ∧ twice ≠ once.
Proof.
  repeat split; try (vm_compute; reflexivity).
  intros H. apply (f_equal (fun s => stockOf (catalog s) "P1")) in H.
  vm_compute in H. discriminate.
Qed.

(** ** The order total *)


Lemma updateOrderStatus_orders env db id s :
  orders (store (updateOrderStatus env db id s)) = orders db
  ∨ ∃ i o st,
      orders db !! i = Some o
      ∧ orders (store (updateOrderStatus env db id s))
        = <[i := Order.set_orderStatus o st]> (orders db).
Proof.
  destruct id as [id|raw]; [|by left].
  unfold updateOrderStatus.
  destruct (findById id (orders db)) as [[i o]|] eqn:Hfind; [|by left].
  apply findById_Some in Hfind as [Hi _].
  destruct (parseOrderStatus s) as [e|st]; simpl; [by left|].
  destruct (saveOrder _) as [e|o'] eqn:Hs; [by left|].
  apply saveOrder_inr in Hs as [-> _]. right. by exists i, o, st.
Qed.

Lemma mpesaCallback_orders env db body :
  orders (store (mpesaCallback env db body)) = orders db
  ∨ ∃ i o,
      orders db !! i = Some o
      ∧ orders (store (mpesaCallback env db body))
        = <[i := reconciled o body]> (orders db).
Proof.
  destruct (truthy (Callback.input_ThirdPartyReference body)) as [ref|] eqn:Href.
  2:{ left. by rewrite (mpesaCallback_missing _ _ _ Href). }
  destruct (findOne ref (orders db)) as [[i o]|] eqn:Hfind.
  2:{ left. by rewrite (mpesaCallback_unknown _ _ _ _ Href Hfind). }
  destruct (mpesaCallback_found env db body ref i o Href Hfind) as [-> _].
  simpl. destruct (validate o); [|by left].
  right. exists i, o. split; [|done]. by apply (findOne_Some _ _ _ _ Hfind).
Qed.

Lemma createOrder_orders env db body :
  orders (store (createOrder env db body)) = orders db
  ∨ ∃ ci items pm sent tx o r,
      validated body = Some (ci, items, pm)
      ∧ transaction env db ci items pm = (sent, inr (tx, o, r))
      ∧ orders (store (createOrder env db body)) = (orders db ++ [o])%list.
Proof.
  destruct (validated body) as [[[ci items] pm]|] eqn:Hv.
  2:{ left. by rewrite createOrder_incomplete. }
  destruct (transaction env db ci items pm) as [sent [e|[[tx o] r]]] eqn:Ht.
  - left. by rewrite (createOrder_aborted _ _ _ _ _ _ _ _ Hv Ht).
  - right. exists ci, items, pm, sent, tx, o, r. repeat split; try done.
    destruct (createOrder_committed _ _ _ _ _ _ _ _ _ _ Hv Ht) as (-> & _).
    by destruct (transaction_inr _ _ _ _ _ _ _ _ _ Ht) as (c & _ & _ & _ & ->).
Qed.





(** ** The payment branch of the checkout *)

Lemma normalizeMpesaNumber_inl phone e :
  normalizeMpesaNumber phone = inl e -> e = InvalidPhoneNumber phone.
Proof.
  unfold normalizeMpesaNumber.
  repeat match goal with
         | |- context [if ?b then _ else _] => destruct b
         end; unfold mret, Try_ret, throw; congruence.
Qed.

(** C10. A checkout whose product list is present and empty, with a
    customer whose name, phone and address are not empty and with payment
    method Cartao or Entrega, is not rejected: it is answered with status
    201 and persists an order without lines and with total 0. *)
Theorem createOrder_empty_cart env db body ci pm :
  body_customerInfo body = Some ci ->
  body_products body = Some [] ->
  body_paymentMethod body = Some pm ->
  pm ∈ ["Cartao"; "Entrega"] ->
  nonempty (Customer.name ci) = true ->
  nonempty (Customer.phone ci) = true ->
  nonempty (Customer.address ci) = true ->
  let out := createOrder env db body in
  ∃ o,
    response out
    = Some (Http.mk 201 (Http.Created (Order._id o) (Order.trackingId o) None))
    ∧ store out = mkStore (catalog db) (orders db ++ [o])
    ∧ Order.products o = []
    ∧ Order.totalAmount o = 0%Z
    ∧ Order.customerInfo o = ci
    ∧ Order.paymentMethod o = pm
    ∧ Order.paymentStatus o
      = (if bool_decide (pm = "Entrega") then pending else paid).
Proof.
  intros Hci Hitems Hpm Hin Hn Hp Ha. simpl.
  unfold createOrder, validated. rewrite Hci, Hitems, Hpm.
  assert (Hcase : pm = "Cartao" ∨ pm = "Entrega").
  { rewrite !elem_of_cons, elem_of_nil in Hin. tauto. }
  destruct Hcase as [-> | ->]; simpl;
    unfold transaction, saveOrder, validate; simpl; rewrite Hn, Hp, Ha; simpl;
    unfold payment, saveOrder, validate; simpl; rewrite Hn, Hp, Ha; simpl;
    eexists; repeat split; reflexivity.
Qed.

Lemma createOrder_empty_cart_witness :
  response (createOrder Sample.env Sample.db (Sample.checkout "Cartao" []))
  = Some (Http.mk 201 (Http.Created "65f0a1" "65f0a2" None))
  ∧ ((fun o => (Order.products o, Order.totalAmount o, Order.paymentStatus o)) <$>
       orders (store (createOrder Sample.env Sample.db (Sample.checkout "Cartao" []))))
    = [([], 0%Z, paid)].
Proof.
  destruct (createOrder_empty_cart Sample.env Sample.db
              (Sample.checkout "Cartao" []) Sample.customer "Cartao")
    as (o & Hresp & Hstore & _);
    [reflexivity|reflexivity|reflexivity| |reflexivity|reflexivity|reflexivity|].
  - apply list_elem_of_here.
  - split; reflexivity.
Defined.

Lemma transaction_payment env db ci items pm c :
  reserveAll items (mkCart (catalog db) 0 []) = inr c ->
  validate (newOrder env ci c pm) = true ->
  transaction env db ci items pm
  = (let '(sent, r) := payment env (newOrder env ci c pm) in
     (sent, '(o', mpesaResponse) ← r;
            mret (mkStore (view c) (orders db ++ [o']), o', mpesaResponse))).
Proof.
  intros Hc Hvalid. unfold transaction. rewrite Hc. simpl.
  unfold saveOrder at 1. by rewrite Hvalid.
Qed.

Lemma payment_invalid_phone env o e :
  Order.paymentMethod o = "Mpesa" ->
  normalizeMpesaNumber (Customer.phone (Order.customerInfo o)) = inl e ->
  payment env o = ([], inl e).
Proof.
  intros Hpm Hn. unfold payment. by rewrite bool_decide_eq_true_2, Hn.
Qed.

Lemma payment_request env o msisdn :
  Order.paymentMethod o = "Mpesa" ->
  validate o = true ->
  normalizeMpesaNumber (Customer.phone (Order.customerInfo o)) = inr msisdn ->
  payment env o
  = ([mpesaPayload env o msisdn],
     match mpesaApi env (mpesaPayload env o msisdn) with
     | Axios.Fulfilled d => inr (set_acknowledgment o d, Some d)
     | Axios.RejectedResponse st d => inl (AxiosError (Some (st, d)))
     | Axios.RejectedNoResponse => inl (AxiosError None)
     end).
Proof.
  intros Hpm Hvalid Hn. unfold payment. rewrite bool_decide_eq_true_2, Hn by done.
  destruct (mpesaApi env _) as [d|st d|]; try done.
  unfold saveOrder.
  replace (validate (set_acknowledgment o d)) with true; done.
Qed.

Lemma payment_simulated env o :
  Order.paymentMethod o ≠ "Mpesa" ->
  validate o = true ->
  payment env o
  = ([], inr (Order.set_paymentStatus o
                (if bool_decide (Order.paymentMethod o = "Entrega")
                 then pending else paid), None)).
Proof.
  intros Hpm Hvalid. unfold payment. rewrite bool_decide_eq_false_2 by done.
  unfold saveOrder.
  replace (validate (Order.set_paymentStatus o _)) with true; done.
Qed.

(** C4, as the code has it.  Only the method Mpesa goes to the provider.
    For a checkout with that method whose cart and order validate: when
    the customer's phone cannot be normalised the checkout fails with
    [InvalidPhoneNumber], sends nothing and persists nothing; otherwise
    exactly one request is sent, carrying the generated reference (as
    transaction and as third-party reference), the order total as amount
    and the normalised phone; when the provider acknowledges it, the order
    is committed with the acknowledgment's conversation id, response code
    and response description and with payment status pending, and when the
    provider refuses it nothing is persisted.  Every other method, Emola
    included, sends no request, and its committed order is pending for
    Entrega and paid otherwise. *)
Theorem createOrder_mpesa env db body ci items pm c :
  validated body = Some (ci, items, pm) ->
  reserveAll items (mkCart (catalog db) 0 []) = inr c ->
  validate (newOrder env ci c pm) = true ->
  let out := createOrder env db body in
  (pm = "Mpesa" ->
   match normalizeMpesaNumber (Customer.phone ci) with
   | inl e =>
       e = InvalidPhoneNumber (Customer.phone ci)
       ∧ requests out = []
       ∧ store out = db
       ∧ response out = Some (Http.mk 500 (Http.OrderError e))
   | inr msisdn =>
       let p := Mpesa.mkPayload (newReference env) msisdn (toString (total c))
                  (newReference env) (serviceProviderCode env) in
       requests out = [p]
       ∧ match mpesaApi env p with
         | Axios.Fulfilled d =>
             ∃ o,
               store out = mkStore (view c) (orders db ++ [o])
               ∧ Order.mpesaDetails o
                 = Mpesa.mkDetails None (Some (newReference env))
                     (Axios.output_ConversationID d) (Axios.output_ResponseCode d)
                     (Axios.output_ResponseDesc d)
               ∧ Order.paymentStatus o = pending
               ∧ Order.orderStatus o = processing
               ∧ Order.totalAmount o = total c
               ∧ Order.products o = productDetails c
         | _ => store out = db ∧ ∃ b, response out = Some (Http.mk 500 b)
         end
   end)
  ∧ (pm ≠ "Mpesa" ->
     requests out = []
     ∧ ∃ o,
         store out = mkStore (view c) (orders db ++ [o])
         ∧ Order.paymentStatus o
           = (if bool_decide (pm = "Entrega") then pending else paid)
         ∧ Mpesa.conversationID (Order.mpesaDetails o) = None).
Proof.
  intros Hv Hc Hvalid. simpl.
  pose proof (transaction_payment env db ci items pm c Hc Hvalid) as Ht.
  split.
  - intros ->.
    destruct (normalizeMpesaNumber (Customer.phone ci)) as [e|msisdn] eqn:Hn.
    + rewrite (payment_invalid_phone env (newOrder env ci c "Mpesa") e eq_refl Hn) in Ht.
      simpl in Ht.
      rewrite (createOrder_aborted _ _ _ _ _ _ _ _ Hv Ht). simpl.
      by apply normalizeMpesaNumber_inl in Hn as ->.
    + simpl.
      pose proof (payment_request env (newOrder env ci c "Mpesa") msisdn
                    eq_refl Hvalid Hn) as Hp.
      unfold mpesaPayload in Hp. simpl in Hp.
      destruct (mpesaApi env _) as [d|st d|].
      * rewrite Hp in Ht. simpl in Ht.
        destruct (createOrder_committed _ _ _ _ _ _ _ _ _ _ Hv Ht) as (-> & -> & _).
        split; [done|]. eexists. repeat split.
      * rewrite Hp in Ht. simpl in Ht.
        rewrite (createOrder_aborted _ _ _ _ _ _ _ _ Hv Ht). simpl. eauto.
      * rewrite Hp in Ht. simpl in Ht.
        rewrite (createOrder_aborted _ _ _ _ _ _ _ _ Hv Ht). simpl. eauto.
  - intros Hpm.
    rewrite (payment_simulated env (newOrder env ci c pm) Hpm Hvalid) in Ht.
    simpl in Ht.
    destruct (createOrder_committed _ _ _ _ _ _ _ _ _ _ Hv Ht) as (-> & -> & _).
    split; [done|]. eexists. repeat split.
Qed.

Lemma createOrder_mpesa_witness :
  requests (createOrder Sample.env Sample.db (Sample.checkout "Mpesa" Sample.cart))
  = [Mpesa.mkPayload Sample.reference "258841234567" "200" Sample.reference "171717"]
  ∧ ((fun o => (Order.mpesaDetails o, Order.paymentStatus o)) <$>
       orders Sample.afterMpesa)
    = [(Mpesa.mkDetails None (Some Sample.reference) (Some "AG_20240101_0001")
          (Some "INS-0") (Some "Request processed successfully"), pending)].
Proof.
  edestruct (createOrder_mpesa Sample.env Sample.db
               (Sample.checkout "Mpesa" Sample.cart) Sample.customer Sample.cart
               "Mpesa") as [Hmpesa _];
    [reflexivity|vm_compute; reflexivity|reflexivity|].
  destruct (Hmpesa eq_refl) as (Hreq & o & Hstore & _).
  split; [exact Hreq|reflexivity].
Defined.

(** C4, as stated, fails for the method Emola: no request goes to the
    provider and the persisted order is paid, not pending. *)
Lemma createOrder_emola_is_simulated :
  requests (createOrder Sample.env Sample.db (Sample.checkout "Emola" Sample.cart))
  = []
  ∧ ((fun o => (Order.paymentMethod o, Order.paymentStatus o)) <$>
       orders (store (createOrder Sample.env Sample.db
                        (Sample.checkout "Emola" Sample.cart))))
    = [("Emola", paid)]
  ∧ (Order.paymentStatus <$>
       orders (store (createOrder Sample.env Sample.db
                        (Sample.checkout "Emola" Sample.cart))))
    ≠ [pending].
Proof. repeat split; [vm_compute; reflexivity..|vm_compute; discriminate]. Qed.

(** ** The provider reference *)

Lemma newReference_same_clock env1 env2 :
  now env1 = now env2 -> newReference env1 = newReference env2.
Proof. unfold newReference. by intros ->. Qed.

Lemma newReference_inj env1 env2 :
  newReference env1 = newReference env2 -> now env1 = now env2.
Proof.
  unfold newReference. intros [= H].
  change (NilZero.string_of_uint (N.to_uint (now env1))
          = NilZero.string_of_uint (N.to_uint (now env2))) in H.
  apply DecimalN.Unsigned.to_uint_inj.
  assert (Hnn : ∀ n, N.to_uint n ≠ Decimal.Nil).
  { intros [|p]; [done|apply DecimalPos.Unsigned.to_uint_nonnil]. }
  pose proof (NilZero.usu _ (Hnn (now env1))) as H1.
  pose proof (NilZero.usu _ (Hnn (now env2))) as H2.
  rewrite H in H1. congruence.
Qed.

(** C8 on the code.  Two checkouts served within the same millisecond both
    commit, and their two orders carry the same provider reference; the
    callback for that reference then finds the first of them only. *)
Theorem createOrder_reference_collision :
  let first := store (createOrder Sample.env Sample.db
                        (Sample.checkout "Mpesa" Sample.cart)) in
  let second := store (createOrder Sample.env2 first
                         (Sample.checkout "Mpesa" Sample.cart)) in
  ((fun o => (Order._id o, Mpesa.thirdPartyReference (Order.mpesaDetails o))) <$>
     orders second)
  = [("65f0a1", Some "PERFUME_1700000000000");
     ("65f0b1", Some "PERFUME_1700000000000")]
  ∧ ((fun o => (Order._id o, Order.paymentStatus o)) <$>
       orders (store (mpesaCallback Sample.env second Sample.success)))
    = [("65f0a1", paid); ("65f0b1", pending)].
Proof. split; vm_compute; reflexivity. Qed.

(** * Further properties of the workflow *)

(** ** Phone normalisation *)

Lemma replace_non_digits_digits s :
  Forall (fun c => is_digit c = true) (list_ascii_of_string s) ->
  replace_non_digits s = s.
Proof.
  induction s as [|c r IH]; simpl; [done|].
  intros [Hc Hr]%Forall_cons. rewrite Hc. by rewrite IH.
Qed.

Lemma digitsOf_digits phone :
  Forall (fun c => is_digit c = true) (digitsOf phone).
Proof.
  unfold digitsOf. apply List.Forall_forall.
  intros c Hc. by apply List.filter_In in Hc as [_ Hc].
Qed.

Lemma dropLeadingZero_cases d :
  dropLeadingZero d = d ∨ d = ("0"%char :: dropLeadingZero d).
Proof.
  destruct d as [|c r]; [by left|].
  destruct c as [[] [] [] [] [] [] [] []]; simpl; auto.
Qed.

Lemma dropLeadingZero_digits d :
  Forall (fun c => is_digit c = true) d ->
  Forall (fun c => is_digit c = true) (dropLeadingZero d).
Proof.
  intros H. destruct (dropLeadingZero_cases d) as [->|Hd]; [done|].
  rewrite Hd in H. by apply Forall_cons in H as [_ H].
Qed.

(** The string the normalisation works on, after the two cleaning steps. *)
Lemma normalizeMpesaNumber_inr phone r :
  normalizeMpesaNumber phone = inr r ->
  let clean := string_of_list_ascii (dropLeadingZero (digitsOf phone)) in
  (localShape (dropLeadingZero (digitsOf phone)) ∧ r = "258" ++ clean)
  ∨ (internationalShape (dropLeadingZero (digitsOf phone)) ∧ r = clean).
Proof.
  unfold normalizeMpesaNumber.
  set (clean := if startsWith (replace_non_digits phone) "0"
                then substring1 (replace_non_digits phone)
                else replace_non_digits phone).
  assert (Hclean : list_ascii_of_string clean = dropLeadingZero (digitsOf phone)).
  { unfold clean. by rewrite substring1_spec, replace_non_digits_spec. }
  rewrite <- Hclean, string_of_list_ascii_of_string.
  destruct ((String.length clean =? 9)%nat
            && (startsWith clean "84" || startsWith clean "85")) eqn:Hloc.
  - intros [= <-]. left. by apply localShape_test in Hloc.
  - destruct ((String.length clean =? 12)%nat && startsWith clean "258") eqn:Hint;
      [|done].
    intros [= <-]. right. by apply internationalShape_test in Hint.
Qed.

Lemma string_of_digits d :
  Forall (fun c => is_digit c = true) d ->
  replace_non_digits (string_of_list_ascii d) = string_of_list_ascii d
  ∧ String.length (string_of_list_ascii d) = length d.
Proof.
  intros Hd. split.
  - apply replace_non_digits_digits.
    by rewrite list_ascii_of_string_of_list_ascii.
  - by rewrite <- length_list_ascii, list_ascii_of_string_of_list_ascii.
Qed.

Lemma startsWith_258_not_0 s :
  startsWith s "258" = true -> startsWith s "0" = false.
Proof.
  destruct s as [|c r]; [done|].
  destruct c as [[] [] [] [] [] [] [] []]; simpl; done.
Qed.

(** A string of twelve digits that starts with 258 is returned as it is. *)
Lemma normalizeMpesaNumber_international r :
  replace_non_digits r = r ->
  String.length r = 12%nat ->
  startsWith r "258" = true ->
  normalizeMpesaNumber r = inr r.
Proof.
  intros Hd Hlen H258. unfold normalizeMpesaNumber.
  rewrite Hd, (startsWith_258_not_0 _ H258), Hlen, H258. done.
Qed.

Lemma normalizeMpesaNumber_result phone r :
  normalizeMpesaNumber phone = inr r ->
  replace_non_digits r = r ∧ String.length r = 12%nat ∧ startsWith r "258" = true.
Proof.
  intros H. pose proof (dropLeadingZero_digits _ (digitsOf_digits phone)) as Hd.
  destruct (normalizeMpesaNumber_inr _ _ H) as [[[Hlen Hp] ->]|[[Hlen Hp] ->]].
  - change ("258" ++ string_of_list_ascii (dropLeadingZero (digitsOf phone)))
      with (string_of_list_ascii (countryCode ++ dropLeadingZero (digitsOf phone))).
    assert (Hall : Forall (fun c => is_digit c = true)
                     (countryCode ++ dropLeadingZero (digitsOf phone))).
    { apply Forall_app. split; [by repeat constructor|done]. }
    destruct (string_of_digits _ Hall) as [-> ->].
    rewrite length_app, Hlen. done.
  - destruct (string_of_digits _ Hd) as [-> ->].
    repeat split; [done|]. apply startsWith_take.
    by rewrite list_ascii_of_string_of_list_ascii.
Qed.

(** X1. Whatever [normalizeMpesaNumber] returns is twelve ASCII digits that
    start with the country code 258, and normalising such a result again
    returns it unchanged. *)
Theorem normalizeMpesaNumber_idempotent phone r :
  normalizeMpesaNumber phone = inr r ->
  String.length r = 12%nat
  ∧ startsWith r "258" = true
  ∧ replace_non_digits r = r
  ∧ normalizeMpesaNumber r = inr r.
Proof.
  intros (Hd & Hlen & H258)%normalizeMpesaNumber_result.
  repeat split; try done. by apply normalizeMpesaNumber_international.
Qed.

Lemma normalizeMpesaNumber_idempotent_witness :
  normalizeMpesaNumber "258841234567" = inr "258841234567".
Proof.
  apply (normalizeMpesaNumber_idempotent "084 123 4567" "258841234567" eq_refl).
Defined.

(** X2. The result depends on the digits of the input only: two inputs
    with the same digits, however they are spaced or punctuated, are both
    refused or both normalised to the same number. *)
Theorem normalizeMpesaNumber_formatting a b :
  replace_non_digits a = replace_non_digits b ->
  (∀ r, normalizeMpesaNumber a = inr r ↔ normalizeMpesaNumber b = inr r)
  ∧ (normalizeMpesaNumber a = inl (InvalidPhoneNumber a)
     ↔ normalizeMpesaNumber b = inl (InvalidPhoneNumber b)).
Proof.
  intros Hab. unfold normalizeMpesaNumber. rewrite Hab.
  repeat match goal with
         | |- context [if ?c then _ else _] => destruct c
         end; unfold mret, Try_ret, throw; split; try intros r; split; congruence.
Qed.

Lemma normalizeMpesaNumber_formatting_witness :
  normalizeMpesaNumber "+258 84-123-4567" = inr "258841234567".
Proof.
  apply (normalizeMpesaNumber_formatting "258841234567" "+258 84-123-4567"
           eq_refl).
  reflexivity.
Defined.

(** X3. A local number of nine digits that starts with 84 or 85 has three
    accepted spellings with one result: as it is, with a leading zero, and
    with the country code 258 in front. *)
Theorem normalizeMpesaNumber_spellings c :
  replace_non_digits c = c ->
  String.length c = 9%nat ->
  startsWith c "84" || startsWith c "85" = true ->
  normalizeMpesaNumber c = inr ("258" ++ c)
  ∧ normalizeMpesaNumber ("0" ++ c) = inr ("258" ++ c)
  ∧ normalizeMpesaNumber ("258" ++ c) = inr ("258" ++ c).
Proof.
  intros Hd Hlen Hp.
  assert (H0 : startsWith c "0" = false).
  { destruct c as [|x r]; [done|].
    destruct x as [[] [] [] [] [] [] [] []]; simpl in *; done. }
  repeat split.
  - unfold normalizeMpesaNumber. rewrite Hd, H0. cbv beta iota zeta.
    by rewrite Hlen, Hp.
  - unfold normalizeMpesaNumber.
    change (replace_non_digits ("0" ++ c)) with (String "0" (replace_non_digits c)).
    rewrite Hd.
    change (startsWith (String "0" c) "0") with true.
    cbv beta iota zeta. change (substring1 (String "0" c)) with c.
    by rewrite Hlen, Hp.
  - apply normalizeMpesaNumber_international.
    + change (replace_non_digits ("258" ++ c))
        with ("258" ++ replace_non_digits c). by rewrite Hd.
    + change (String.length ("258" ++ c)) with (S (S (S (String.length c)))).
      by rewrite Hlen.
    + done.
Qed.

Lemma normalizeMpesaNumber_spellings_witness :
  normalizeMpesaNumber "0851234567" = inr "258851234567".
Proof.
  apply (normalizeMpesaNumber_spellings "851234567" eq_refl eq_refl eq_refl).
Defined.

(** ** Stock, product by product *)




Lemma reserveAll_nonneg items : ∀ acc acc',
  reserveAll items acc = inr acc' ->
  stockNonneg (view acc) -> stockNonneg (view acc').
Proof.
  induction items as [|item rest IH]; intros acc acc' H Hnn; simpl in H.
  - by injection H as <-.
  - destruct (reserve acc item) as [e|acc1] eqn:Hone; [done|]. simpl in H.
    apply (IH _ _ H).
    destruct (reserve_inr _ _ _ Hone) as (p & Hp & Hq & -> & _).
    apply map_Forall_insert_2; [simpl; lia|done].
Qed.



(** X5. A checkout never leaves a negative stock: when no product of the
    catalog has a negative stock before the request, none has one after
    it, whatever the request and however it ends. *)
Theorem createOrder_stock_nonneg env db body :
  stockNonneg (catalog db) ->
  stockNonneg (catalog (store (createOrder env db body))).
Proof.
  intros Hnn.
  destruct (validated body) as [[[ci items] pm]|] eqn:Hv.
  2:{ by rewrite createOrder_incomplete. }
  destruct (transaction env db ci items pm) as [sent [e|[[tx o] r]]] eqn:Ht.
  - by rewrite (createOrder_aborted _ _ _ _ _ _ _ _ Hv Ht).
  - destruct (createOrder_committed _ _ _ _ _ _ _ _ _ _ Hv Ht) as (-> & _).
    destruct (transaction_inr _ _ _ _ _ _ _ _ _ Ht) as (c & Hc & _ & _ & ->).
    by apply (reserveAll_nonneg _ _ _ Hc).
Qed.

Lemma createOrder_stock_nonneg_witness :
  stockNonneg (catalog (store (createOrder Sample.env Sample.db
                                 (Sample.checkout "Cartao" Scenario.wholeStock)))).
Proof.
  apply createOrder_stock_nonneg.
  apply map_Forall_singleton. simpl. lia.
Defined.

(** ** A cart of one line *)







(** ** The call to the provider *)

Lemma payment_requests env o sent r :
  payment env o = (sent, r) ->
  sent = []
  ∨ ∃ msisdn,
      Order.paymentMethod o = "Mpesa"
      ∧ normalizeMpesaNumber (Customer.phone (Order.customerInfo o)) = inr msisdn
      ∧ sent = [mpesaPayload env o msisdn].
Proof.
  unfold payment. case_bool_decide as Hpm.
  - destruct (normalizeMpesaNumber _) as [e|msisdn] eqn:Hn.
    + intros [= <- _]. by left.
    + intros H. right. exists msisdn.
      destruct (mpesaApi env _); injection H as <- _; done.
  - intros [= <- _]. by left.
Qed.

(** X8. A checkout contacts the payment provider at most once, and only
    for the method Mpesa, after every line of the cart was reserved, the
    order passed its validation and the customer's phone was normalised;
    the one request then carries that normalised phone, the generated
    reference and the order total. *)
Theorem createOrder_requests env db body :
  requests (createOrder env db body) = []
  ∨ ∃ ci items c msisdn,
      validated body = Some (ci, items, "Mpesa")
      ∧ reserveAll items (mkCart (catalog db) 0 []) = inr c
      ∧ validate (newOrder env ci c "Mpesa") = true
      ∧ normalizeMpesaNumber (Customer.phone ci) = inr msisdn
      ∧ requests (createOrder env db body)
        = [Mpesa.mkPayload (newReference env) msisdn (toString (total c))
             (newReference env) (serviceProviderCode env)].
Proof.
  destruct (validated body) as [[[ci items] pm]|] eqn:Hv.
  2:{ left. by rewrite createOrder_incomplete. }
  destruct (reserveAll items (mkCart (catalog db) 0 [])) as [e|c] eqn:Hc.
  { left. by rewrite (createOrder_aborted _ _ _ _ _ _ _ _ Hv
                        (transaction_reserve_inl env db ci items pm e Hc)). }
  destruct (validate (newOrder env ci c pm)) eqn:Hvalid.
  2:{ left.
      assert (Ht : transaction env db ci items pm = ([], inl ValidationError)).
      { unfold transaction. rewrite Hc. simpl. unfold saveOrder.
        by rewrite Hvalid. }
      by rewrite (createOrder_aborted _ _ _ _ _ _ _ _ Hv Ht). }
  pose proof (transaction_payment env db ci items pm c Hc Hvalid) as Ht.
  destruct (payment env (newOrder env ci c pm)) as [sent r] eqn:Hp.
  assert (Hreq : requests (createOrder env db body) = sent).
  { destruct r as [e|[o a]]; simpl in Ht.
    - by rewrite (createOrder_aborted _ _ _ _ _ _ _ _ Hv Ht).
    - by destruct (createOrder_committed _ _ _ _ _ _ _ _ _ _ Hv Ht) as (_ & -> & _). }
  rewrite Hreq.
  destruct (payment_requests _ _ _ _ Hp) as [->|(msisdn & Hpm & Hn & ->)];
    [by left|].
  right. simpl in Hpm. subst pm. by exists ci, items, c, msisdn.
Qed.

(** X9. When the provider answers the payment request of a Mpesa checkout
    with an error, nothing is persisted and no notification is sent,
    although the request went out; the answer has status 500 and carries
    the provider's data with, as message, its response description when
    that is not empty, otherwise its error text when that is not empty,
    otherwise the fixed text (here [None]).  When the call fails without
    an answer of the provider the status is 500 with the general error. *)
Theorem createOrder_provider_error env db body ci items c msisdn :
  validated body = Some (ci, items, "Mpesa") ->
  reserveAll items (mkCart (catalog db) 0 []) = inr c ->
  validate (newOrder env ci c "Mpesa") = true ->
  normalizeMpesaNumber (Customer.phone ci) = inr msisdn ->
  let out := createOrder env db body in
  let p := Mpesa.mkPayload (newReference env) msisdn (toString (total c))
             (newReference env) (serviceProviderCode env) in
  (∀ st d,
     mpesaApi env p = Axios.RejectedResponse st d ->
     store out = db ∧ notifications out = [] ∧ requests out = [p]
     ∧ response out
       = Some (Http.mk 500
                 (Http.PaymentServiceFailure
                    (if nonempty (default "" (Axios.err_ResponseDesc d))
                     then Axios.err_ResponseDesc d
                     else if nonempty (default "" (Axios.output_error d))
                          then Axios.output_error d else None) d)))
  ∧ (mpesaApi env p = Axios.RejectedNoResponse ->
     store out = db ∧ notifications out = [] ∧ requests out = [p]
     ∧ response out = Some (Http.mk 500 (Http.OrderError (AxiosError None)))).
Proof.
  intros Hv Hc Hvalid Hn. simpl.
  pose proof (transaction_payment env db ci items "Mpesa" c Hc Hvalid) as Ht.
  pose proof (payment_request env (newOrder env ci c "Mpesa") msisdn
                eq_refl Hvalid Hn) as Hp.
  unfold mpesaPayload in Hp. simpl in Hp.
  split.
  - intros st d Hapi. rewrite Hapi in Hp. rewrite Hp in Ht. simpl in Ht.
    rewrite (createOrder_aborted _ _ _ _ _ _ _ _ Hv Ht). simpl.
    repeat split.
    destruct d as [[[|? ?]|] [[|? ?]|]]; reflexivity.
  - intros Hapi. rewrite Hapi in Hp. rewrite Hp in Ht. simpl in Ht.
    by rewrite (createOrder_aborted _ _ _ _ _ _ _ _ Hv Ht).
Qed.

Lemma createOrder_provider_error_witness :
  store (createOrder Scenario.refusing Sample.db (Sample.checkout "Mpesa" Sample.cart))
  = Sample.db
  ∧ response (createOrder Scenario.refusing Sample.db
                (Sample.checkout "Mpesa" Sample.cart))
    = Some (Http.mk 500
              (Http.PaymentServiceFailure (Some "Insufficient balance")
                 Scenario.refusal)).
Proof.
  edestruct (createOrder_provider_error Scenario.refusing Sample.db
               (Sample.checkout "Mpesa" Sample.cart) Sample.customer Sample.cart)
    as [Hrefused _];
    [reflexivity|vm_compute; reflexivity|reflexivity|reflexivity|].
  destruct (Hrefused 422%Z Scenario.refusal eq_refl) as (Hs & _ & _ & Hr).
  split; [exact Hs|exact Hr].
Defined.

(** ** A checkout and its callbacks *)







Lemma findOne_first ref os i o :
  findOne ref os = Some (i, o) ->
  ∀ j o', (j < i)%nat -> os !! j = Some o' ->
          Mpesa.thirdPartyReference (Order.mpesaDetails o') ≠ Some ref.
Proof.
  revert i. induction os as [|o0 os IH]; intros i H j o' Hj Ho'; simpl in H; [done|].
  case_bool_decide as Href0.
  - injection H as <- <-. lia.
  - destruct (findOne ref os) as [[k o1]|] eqn:Hf; [|done]. simpl in H.
    injection H as <- <-.
    destruct j as [|j]; simpl in Ho'.
    + by injection Ho' as <-.
    + apply (IH k eq_refl j o'); [lia|done].
Qed.

Lemma restoreStock_frame items (cat : gmap string Product.t) id :
  (Product.name <$> restoreStock items cat !! id) = (Product.name <$> cat !! id)
  ∧ (Product.price <$> restoreStock items cat !! id) = (Product.price <$> cat !! id).
Proof.
  rewrite restoreStock_lookup. by destruct (cat !! id) as [[]|].
Qed.

(** X11. What a callback can touch.  Whatever the callback and however it
    is answered, the number of orders stays, and every product keeps its
    name and its price and no product is added or removed.  The one
    order a callback changes is the oldest one that carries the
    reference: every older order has another reference, and every other
    order, also a later one with the same reference, is left as it was. *)
Theorem mpesaCallback_frame env db body :
  let out := mpesaCallback env db body in
  length (orders (store out)) = length (orders db)
  ∧ (∀ id,
       (Product.name <$> catalog (store out) !! id)
       = (Product.name <$> catalog db !! id)
       ∧ (Product.price <$> catalog (store out) !! id)
         = (Product.price <$> catalog db !! id))
  ∧ (∀ ref i o,
       truthy (Callback.input_ThirdPartyReference body) = Some ref ->
       findOne ref (orders db) = Some (i, o) ->
       (∀ j, j ≠ i -> orders (store out) !! j = orders db !! j)
       ∧ (∀ j o', (j < i)%nat -> orders db !! j = Some o' ->
                  Mpesa.thirdPartyReference (Order.mpesaDetails o') ≠ Some ref)).
Proof.
  simpl.
  destruct (truthy (Callback.input_ThirdPartyReference body)) as [ref|] eqn:Href.
  2:{ rewrite (mpesaCallback_missing _ _ _ Href). simpl. by repeat split. }
  destruct (findOne ref (orders db)) as [[i o]|] eqn:Hfind.
  2:{ rewrite (mpesaCallback_unknown _ _ _ _ Href Hfind). simpl.
      split; [done|split; [done|]].
      intros ref' i o Href' Hf. congruence. }
  destruct (mpesaCallback_found env db body ref i o Href Hfind) as [-> _].
  simpl. split; [|split].
  - destruct (validate o); [apply length_insert|done].
  - intros id. unfold restocked. case_bool_decide; [done|].
    apply restoreStock_frame.
  - intros ref' i' o' [= <-] Hf. rewrite Hfind in Hf. injection Hf as <- <-.
    split.
    + intros j Hj. destruct (validate o); [|done].
      by apply list_lookup_insert_ne.
    + exact (findOne_first _ _ _ _ Hfind).
Qed.

Lemma mpesaCallback_frame_witness :
  (Order.paymentStatus <$> orders Scenario.collided) = [pending; pending]
  ∧ orders (store (mpesaCallback Sample.env Scenario.collided Sample.failure))
    !! 1%nat
    = orders Scenario.collided !! 1%nat.
Proof.
  split; [reflexivity|].
  destruct (mpesaCallback_frame Sample.env Scenario.collided Sample.failure)
    as (_ & _ & Hothers).
  edestruct (Hothers Sample.reference 0%nat) as [Hsame _];
    [reflexivity|vm_compute; reflexivity|].
  apply Hsame. discriminate.
Defined.

Lemma reconciled_overwrite o a b :
  reconciled (reconciled o a) b = reconciled o b.
Proof. unfold reconciled. by repeat case_bool_decide. Qed.

(** X12. Of two callbacks for the same stored order the later one decides
    the order: after both, the order is as if only the second had been
    delivered.  In particular a success callback that follows a failure
    callback leaves the order paid and in processing, while the stock the
    failure callback gave back stays given back. *)
Theorem mpesaCallback_last_wins env db first second ref i o :
  truthy (Callback.input_ThirdPartyReference first) = Some ref ->
  truthy (Callback.input_ThirdPartyReference second) = Some ref ->
  findOne ref (orders db) = Some (i, o) ->
  validate o = true ->
  let s1 := store (mpesaCallback env db first) in
  let s2 := store (mpesaCallback env s1 second) in
  orders s2 = orders (store (mpesaCallback env db second))
  ∧ orders s2 = <[i := reconciled o second]> (orders db)
  ∧ (Callback.input_ResultCode first ≠ Some "INS-0" ->
     Callback.input_ResultCode second = Some "INS-0" ->
     Order.paymentStatus (reconciled o second) = paid
     ∧ Order.orderStatus (reconciled o second) = processing
     ∧ ∀ id, catalog s2 !! id
             = credit (orderedOf (Order.products o) id) <$> catalog db !! id).
Proof.
  intros Href1 Href2 Hfind Hvalid. simpl.
  destruct (mpesaCallback_found env db first ref i o Href1 Hfind) as [Hs1 _].
  destruct (mpesaCallback_found env db second ref i o Href2 Hfind) as [Hs2 _].
  rewrite Hvalid in Hs1, Hs2. rewrite Hs1, Hs2.
  assert (Hfind1 : findOne ref (<[i := reconciled o first]> (orders db))
                   = Some (i, reconciled o first)).
  { apply (findOne_insert _ _ _ o); [done|].
    rewrite reconciled_reference. by apply (findOne_Some _ _ _ _ Hfind). }
  destruct (mpesaCallback_found env
              (mkStore (restocked db o first) (<[i := reconciled o first]> (orders db)))
              second ref i _ Href2 Hfind1) as [-> _].
  rewrite validate_reconciled, Hvalid. simpl.
  rewrite reconciled_overwrite, list_insert_insert_eq.
  repeat split; try done.
  - unfold reconciled. by rewrite bool_decide_eq_true_2.
  - unfold reconciled. by rewrite bool_decide_eq_true_2.
  - unfold restocked. simpl.
    rewrite bool_decide_eq_true_2, bool_decide_eq_false_2 by done.
    apply restoreStock_lookup.
Qed.

Lemma mpesaCallback_last_wins_witness :
  let s1 := store (mpesaCallback Sample.env Sample.afterMpesa Sample.failure) in
  let s2 := store (mpesaCallback Sample.env s1 Sample.success) in
  ((fun o => (Order.paymentStatus o, Order.orderStatus o)) <$> orders s2)
  = [(paid, processing)]
  ∧ stockOf (catalog s2) "P1" = 5%Z.
Proof.
  edestruct (mpesaCallback_last_wins Sample.env Sample.afterMpesa Sample.failure
               Sample.success Sample.reference 0%nat)
    as (_ & Horders & Hlate);
    [reflexivity|reflexivity|vm_compute; reflexivity|reflexivity|].
  destruct Hlate as (_ & _ & Hstock); [discriminate|reflexivity|].
  split.
  - rewrite Horders. reflexivity.
  - unfold stockOf. rewrite Hstock. reflexivity.
Defined.

(** ** The administrative status update *)

Lemma parseOrderStatus_name st : parseOrderStatus (Some (statusName st)) = inr st.
Proof. by destruct st. Qed.

Lemma parseOrderStatus_inr s st :
  parseOrderStatus s = inr st -> s = Some (statusName st).
Proof.
  destruct s as [s|]; [|done]. unfold parseOrderStatus.
  repeat match goal with
         | |- context [match ?x with EmptyString => _ | String _ _ => _ end] =>
             destruct x as [|[[] [] [] [] [] [] [] []] ?]; try (intros; discriminate)
         end.
  all: by intros [= <-].
Qed.

Lemma findById_insert id os i o o' :
  findById id os = Some (i, o) ->
  Order._id o' = id ->
  findById id (<[i := o']> os) = Some (i, o').
Proof.
  revert i. induction os as [|o0 os IH]; intros i H Hid; simpl in H; [done|].
  case_bool_decide as Hid0.
  - injection H as <- <-. simpl. by rewrite bool_decide_eq_true_2.
  - destruct (findById id os) as [[j o1]|] eqn:Hf; [|done]. simpl in H.
    injection H as <- <-. simpl. rewrite bool_decide_eq_false_2 by done.
    by rewrite (IH j).
Qed.

Lemma updateOrderStatus_unknown env db id s :
  findById id (orders db) = None ->
  updateOrderStatus env db id s
  = mkOutcome (Some (Http.mk 404 Http.OrderNotFound)) db [] [].
Proof. unfold updateOrderStatus. by intros ->. Qed.


Lemma updateOrderStatus_found env db id i o st :
  findById id (orders db) = Some (i, o) ->
  validate o = true ->
  updateOrderStatus env db id (Some (statusName st))
  = mkOutcome
      (Some (Http.mk 200 (Http.OrderJson (Order.set_orderStatus o st))))
      (mkStore (catalog db) (<[i := Order.set_orderStatus o st]> (orders db))) []
      (sendWhatsAppMessage env (Customer.phone (Order.customerInfo o))
         (Notification.StatusChanged (Order.trackingId o) st)).
Proof.
  unfold updateOrderStatus. intros -> Hvalid.
  rewrite parseOrderStatus_name. simpl. unfold saveOrder.
  replace (validate (Order.set_orderStatus o st)) with true; done.
Qed.



Lemma sameButOrderStatus_refl o : sameButOrderStatus o o.
Proof. by destruct o. Qed.

(** X14. The status update touches the order status and nothing else.
    Whatever its arguments and however it ends, the catalog is unchanged
    (an order cancelled this way keeps its stock reserved), no request
    goes to the provider, and every stored order is as before but,
    possibly, for its order status: payment status, lines, total,
    customer and provider fields stay. *)
Theorem updateOrderStatus_frame env db id s :
  let out := updateOrderStatus env db id s in
  catalog (store out) = catalog db
  ∧ requests out = []
  ∧ Forall2 sameButOrderStatus (orders db) (orders (store out)).
Proof.
  simpl.
  assert (Hrefl : Forall2 sameButOrderStatus (orders db) (orders db)).
  { apply Forall_Forall2_diag, Forall_forall. intros o _.
    apply sameButOrderStatus_refl. }
  destruct id as [id|raw]; [|done].
  unfold updateOrderStatus.
  destruct (findById id (orders db)) as [[i o]|] eqn:Hfind; [|done].
  apply findById_Some in Hfind as [Hi _].
  destruct (parseOrderStatus s) as [e|st]; simpl; [done|].
  destruct (saveOrder _) as [e|o'] eqn:Hs; [done|].
  apply saveOrder_inr in Hs as [-> _]. simpl.
  repeat split.
  rewrite <- (list_insert_id _ _ _ Hi) at 1.
  apply Forall2_insert; [done|]. by destruct o.
Qed.

(** X15. Status updates have no order of their own: any of the four
    statuses can follow any other, and of two updates of the same stored
    order the later one decides, the orders being as if only the second
    had been made. *)
Theorem updateOrderStatus_last_wins env db id i o st1 st2 :
  findById id (orders db) = Some (i, o) ->
  validate o = true ->
  let s1 := store (updateOrderStatus env db id (Some (statusName st1))) in
  let s2 := store (updateOrderStatus env s1 id (Some (statusName st2))) in
  orders s2 = orders (store (updateOrderStatus env db id (Some (statusName st2))))
  ∧ orders s2 = <[i := Order.set_orderStatus o st2]> (orders db)
  ∧ response (updateOrderStatus env s1 id (Some (statusName st2)))
    = Some (Http.mk 200 (Http.OrderJson (Order.set_orderStatus o st2))).
Proof.
  intros Hfind Hvalid. simpl.
  rewrite !(updateOrderStatus_found env db id i o _ Hfind Hvalid). simpl.
  assert (Hfind1 : findById id (<[i := Order.set_orderStatus o st1]> (orders db))
                   = Some (i, Order.set_orderStatus o st1)).
  { apply (findById_insert _ _ _ o); [done|].
    by apply (findById_Some _ _ _ _ Hfind). }
  rewrite (updateOrderStatus_found env
             (mkStore (catalog db) (<[i := Order.set_orderStatus o st1]> (orders db)))
             id i (Order.set_orderStatus o st1) st2 Hfind1 Hvalid).
  simpl. by rewrite list_insert_insert_eq.
Qed.

Lemma updateOrderStatus_last_wins_witness :
  let s1 := store (updateOrderStatus Sample.env Sample.afterMpesa "65f0a1"
                     (Some "cancelled")) in
  let s2 := store (updateOrderStatus Sample.env s1 "65f0a1" (Some "delivered")) in
  (Order.orderStatus <$> orders s2) = [delivered].
Proof.
  pose proof (fun o => updateOrderStatus_last_wins Sample.env Sample.afterMpesa
                        "65f0a1" 0%nat o cancelled delivered) as H.
  edestruct H as (_ & Horders & _); [vm_compute; reflexivity|reflexivity|].
  simpl in Horders. simpl. rewrite Horders. reflexivity.
Defined.

(** ** The state of the WhatsApp connection *)

Lemma truthy_Some s q : truthy s = Some q -> s = Some q ∧ q ≠ EmptyString.
Proof. destruct s as [[|c r]|]; simpl; [done| |done]. by intros [= <-]. Qed.

Lemma onUpdate_consistent loggedOut st u :
  Wa.consistent st -> Wa.consistent (Wa.state (Wa.onUpdate loggedOut st u)).
Proof.
  intros Hst. unfold Wa.onUpdate.
  assert (Hqr : Wa.consistent
                  match truthy (Wa.update_qr u) with
                  | Some q => Wa.mkState Wa.scan (Some q)
                  | None => st
                  end).
  { destruct (truthy (Wa.update_qr u)) as [q|] eqn:Hq; [|done].
    apply truthy_Some in Hq as [_ Hq]. split; [done|]. intros _. by exists q. }
  case_bool_decide.
  - destruct (Wa.lastDisconnect u) as [d|]; [|done].
    by destruct (negb _).
  - by case_bool_decide.
Qed.

(** X16. The state shown to the admin panel stays consistent.  Starting
    from the initial state, after any sequence of connection updates the
    state has no QR code while its status is connected, and has a QR code
    that is not empty while its status asks for a scan; a run of the
    listener that restarts the client leaves the status disconnected. *)
Theorem connectionState_consistent loggedOut :
  Wa.consistent Wa.initial
  ∧ (∀ st us, Wa.consistent st -> Wa.consistent (Wa.run loggedOut st us))
  ∧ (∀ st u, Wa.restarted (Wa.onUpdate loggedOut st u) = true ->
             Wa.status (Wa.state (Wa.onUpdate loggedOut st u)) = Wa.disconnected).
Proof.
  split; [done|]. split.
  - intros st us. revert st. unfold Wa.run.
    induction us as [|u us IH]; intros st Hst; simpl; [done|].
    apply IH. by apply onUpdate_consistent.
  - intros st u. unfold Wa.onUpdate.
    case_bool_decide; [|by case_bool_decide].
    destruct (Wa.lastDisconnect u) as [d|]; [|done].
    by destruct (negb _).
Qed.

Lemma connectionState_consistent_witness :
  Wa.run 401 Wa.initial
    [Wa.mkUpdate None None (Some "2@AbCdEf");
     Wa.mkUpdate (Some "open") None None;
     Wa.mkUpdate (Some "close") (Some (Wa.mkDisconnect (Some 428%Z))) None;
     Wa.mkUpdate (Some "connecting") None (Some "2@GhIjKl")]
  = Wa.mkState Wa.scan (Some "2@GhIjKl")
  ∧ Wa.consistent (Wa.mkState Wa.scan (Some "2@GhIjKl")).
Proof.
  split; [reflexivity|].
  destruct (connectionState_consistent 401) as (Hinit & Hrun & _).
  exact (Hrun Wa.initial
           [Wa.mkUpdate None None (Some "2@AbCdEf");
            Wa.mkUpdate (Some "open") None None;
            Wa.mkUpdate (Some "close") (Some (Wa.mkDisconnect (Some 428%Z))) None;
            Wa.mkUpdate (Some "connecting") None (Some "2@GhIjKl")] Hinit).
Defined.

(** ** The guard of the administrative routes *)

Lemma startsWith_app s p : startsWith s p = true ↔ ∃ post, s = p ++ post.
Proof.
  revert s. induction p as [|a p IH]; intros s; simpl.
  - split; [by exists s|done].
  - destruct s as [|b s].
    + split; [done|]. by intros [post [=]].
    + destruct (Ascii.eqb_spec a b) as [->|Hne].
      * rewrite IH. split.
        -- intros [post ->]. by exists post.
        -- intros [post [= ->]]. by exists post.
      * split; [done|]. intros [post [= ? _]]. done.
Qed.

(** The first field of a string split at spaces. *)
Lemma split_head x :
  ∃ token rest,
    x = token ++ rest
    ∧ without " " token
    ∧ (rest = EmptyString ∨ startsWith rest " " = true)
    ∧ head (split " " x) = Some token.
Proof.
  induction x as [|c r (token & rest & -> & Ht & Hrest & Hhead)].
  - exists EmptyString, EmptyString. repeat split; [constructor|by left].
  - simpl. destruct (Ascii.eqb_spec c " "%char) as [->|Hc].
    + exists EmptyString, (String " " (token ++ rest)).
      repeat split; [constructor|by right].
    + exists (String c token), rest.
      destruct (split " " (token ++ rest)) as [|t ts]; [done|].
      injection Hhead as ->. repeat split; [by constructor|done].
Qed.

Lemma split_head_unique token : ∀ rest,
  without " " token ->
  rest = EmptyString ∨ startsWith rest " " = true ->
  head (split " " (token ++ rest)) = Some token.
Proof.
  induction token as [|c t IH]; intros rest Ht Hrest.
  - destruct Hrest as [->|Hrest]; [done|].
    apply startsWith_app in Hrest as [post ->]. done.
  - apply Forall_cons in Ht as [Hc Ht].
    change (String c t ++ rest) with (String c (t ++ rest)). simpl.
    destruct (Ascii.eqb_spec c " "%char) as [->|_]; [done|].
    specialize (IH rest Ht Hrest).
    destruct (split " " (t ++ rest)) as [|x xs]; [done|].
    by injection IH as ->.
Qed.

Lemma split_bearer x :
  split " " ("Bearer " ++ x) !! 1%nat = head (split " " x).
Proof.
  change ("Bearer " ++ x) with
    (String "B" (String "e" (String "a" (String "r" (String "e" (String "r"
       (String " " x))))))).
  simpl. by destruct (split " " x).
Qed.

(** X17. The guard lets a request through exactly when its authorization
    header is the word Bearer, one space, and a token without spaces that
    [jwt.verify] accepts, followed by nothing or by a space and anything:
    what follows a second space is ignored.  The decoded token is what the
    guarded handler receives; every other request is answered with 401
    and reaches no handler. *)
Theorem authMiddleware_next {D} (verify : string -> option D) authorization user :
  authMiddleware verify authorization = Auth.Next user
  ↔ ∃ token rest,
      authorization = Some ("Bearer " ++ token ++ rest)
      ∧ without " " token
      ∧ (rest = EmptyString ∨ startsWith rest " " = true)
      ∧ verify token = Some user.
Proof.
  unfold authMiddleware. split.
  - destruct (truthy authorization) as [h|] eqn:Hh; [|done].
    apply truthy_Some in Hh as [-> _].
    destruct (startsWith h "Bearer ") eqn:Hb; [|done].
    apply startsWith_app in Hb as [x ->].
    rewrite split_bearer.
    destruct (split_head x) as (token & rest & -> & Ht & Hrest & ->).
    destruct (verify token) as [d|] eqn:Hv; [|done].
    intros [= <-]. by exists token, rest.
  - intros (token & rest & -> & Ht & Hrest & Hv).
    assert (Hb : startsWith ("Bearer " ++ token ++ rest) "Bearer " = true).
    { apply startsWith_app. by eexists. }
    assert (Hh : truthy (Some ("Bearer " ++ token ++ rest))
                 = Some ("Bearer " ++ token ++ rest)) by reflexivity.
    pose proof (split_bearer (token ++ rest)) as Hs.
    rewrite (split_head_unique token rest Ht Hrest) in Hs.
    remember ("Bearer " ++ token ++ rest) as h eqn:Eh.
    rewrite Hh. cbv beta iota. by rewrite Hb, Hs, Hv.
Qed.

(** ** The filter of uploaded files *)

Lemma includes_occursIn s w : includes s w = true ↔ occursIn w s.
Proof.
  unfold occursIn. induction s as [|c r IH]; simpl.
  - rewrite orb_false_r, startsWith_app. split.
    + intros [post H]. by exists EmptyString, post.
    + intros ([|? ?] & post & H); [by exists post|done].
  - rewrite orb_true_iff, startsWith_app, IH. split.
    + intros [[post H]|(pre & post & ->)].
      * by exists EmptyString, post.
      * by exists (String c pre), post.
    + intros ([|c' pre] & post & H).
      * left. by exists post.
      * right. injection H as -> ->. by exists pre, post.
Qed.

Lemma filetypes_test_spec s :
  filetypes_test s = true ↔ ∃ w, w ∈ filetypes ∧ occursIn w s.
Proof.
  unfold filetypes_test. rewrite existsb_exists.
  split; intros (w & Hw & Hs); exists w.
  - by rewrite list_elem_of_In, <- includes_occursIn.
  - by rewrite <- list_elem_of_In, includes_occursIn.
Qed.

(** X18. The upload filter accepts a file exactly when its MIME type and
    the lower-cased extension of its name each contain one of jpeg, jpg,
    png, gif and webp somewhere: the pattern is not anchored, and the two
    need not name the same format.  A file whose name has no extension is
    always refused. *)
Theorem fileFilter_accepts mimetype extname :
  (fileFilter mimetype extname = true
   ↔ (∃ w, w ∈ filetypes ∧ occursIn w mimetype)
     ∧ (∃ w, w ∈ filetypes ∧ occursIn w extname))
  ∧ fileFilter mimetype EmptyString = false.
Proof.
  split.
  - unfold fileFilter. by rewrite andb_true_iff, !filetypes_test_spec.
  - unfold fileFilter. apply andb_false_r.
Qed.

Lemma authMiddleware_next_witness :
  authMiddleware sampleVerify (Some "Bearer eyJhbGciOi.eyJpZCI6.c2lnbg trailing")
  = Auth.Next "admin".
Proof.
  apply authMiddleware_next.
  exists "eyJhbGciOi.eyJpZCI6.c2lnbg", " trailing".
  repeat split; [|by right].
  unfold without. simpl. repeat constructor; discriminate.
Defined.

Lemma fileFilter_accepts_witness : fileFilter "image/png" ".gif" = true.
Proof.
  apply fileFilter_accepts. split.
  - exists "png". split.
    + repeat first [apply list_elem_of_here|apply list_elem_of_further].
    + by exists "image/", "".
  - exists "gif". split.
    + repeat first [apply list_elem_of_here|apply list_elem_of_further].
    + by exists ".", "".
Defined.

(** ** Notifications *)

Lemma sendWhatsAppMessage_cases env c m :
  sendWhatsAppMessage env (Customer.phone c) m = []
  ∨ (sock env = true
     ∧ sendWhatsAppMessage env (Customer.phone c) m
       = [Notification.mk (addressOf c) m]).
Proof. unfold sendWhatsAppMessage. destruct (sock env); [by right|by left]. Qed.

Lemma createOrder_committed_notifications env db body ci items pm sent tx o r :
  validated body = Some (ci, items, pm) ->
  transaction env db ci items pm = (sent, inr (tx, o, r)) ->
  notifications (createOrder env db body)
  = sendWhatsAppMessage env (Customer.phone ci)
      (Notification.OrderCreated (Customer.name ci) (Order.trackingId o)
         (Order.totalAmount o)).
Proof.
  unfold createOrder, createdBody. intros -> ->.
  by destruct (bool_decide (pm = "Mpesa")).
Qed.

Lemma mpesaCallback_found_notifications env db body ref i o :
  truthy (Callback.input_ThirdPartyReference body) = Some ref ->
  findOne ref (orders db) = Some (i, o) ->
  notifications (mpesaCallback env db body)
  = if validate o
    then sendWhatsAppMessage env (Customer.phone (Order.customerInfo o))
           (if bool_decide (Callback.input_ResultCode body = Some "INS-0")
            then Notification.PaymentConfirmed (Order.trackingId o)
            else Notification.PaymentFailed (Order.trackingId o)
                   (Callback.input_ResultDesc body))
    else [].
Proof.
  unfold mpesaCallback. intros -> ->.
  pose proof (validate_reconciled o body) as Hv.
  unfold reconciled, saveOrder in *.
  case_bool_decide; rewrite Hv; by destruct (validate o).
Qed.

(** X19. Who is notified.  Each of the three handlers hands at most one
    message to the WhatsApp client, none when the client is not
    initialised, and the message goes to the digits of the phone of the
    customer of an order that is in the store when the handler ends.  A
    checkout whose transaction raised, a callback that found no order and
    a status update that was refused send nothing. *)
Theorem handlers_notify_customer env db :
  (∀ body, notifiesCustomer env (createOrder env db body))
  ∧ (∀ body, notifiesCustomer env (mpesaCallback env db body))
  ∧ (∀ id s, notifiesCustomer env (updateOrderStatus env db id s))
  ∧ (∀ body ci items pm sent e,
       validated body = Some (ci, items, pm) ->
       transaction env db ci items pm = (sent, inl e) ->
       notifications (createOrder env db body) = []).
Proof.
  split; [|split; [|split]].
  - intros body. unfold notifiesCustomer.
    destruct (validated body) as [[[ci items] pm]|] eqn:Hv.
    2:{ left. by rewrite createOrder_incomplete. }
    destruct (transaction env db ci items pm) as [sent [e|[[tx o] r]]] eqn:Ht.
    { left. by rewrite (createOrder_aborted _ _ _ _ _ _ _ _ Hv Ht). }
    rewrite (createOrder_committed_notifications _ _ _ _ _ _ _ _ _ _ Hv Ht).
    destruct (createOrder_committed _ _ _ _ _ _ _ _ _ _ Hv Ht) as (-> & _).
    destruct (transaction_inr _ _ _ _ _ _ _ _ _ Ht) as (c & _ & _ & Hp & ->).
    destruct (payment_inr _ _ _ _ _ Hp) as (_ & Hci & _).
    destruct (sendWhatsAppMessage_cases env ci
                (Notification.OrderCreated (Customer.name ci) (Order.trackingId o)
                   (Order.totalAmount o))) as [->|[Hsock ->]]; [by left|].
    right. split; [done|]. eexists o, _. split.
    + simpl. apply elem_of_app. right. by apply list_elem_of_singleton.
    + by rewrite Hci.
  - intros body. unfold notifiesCustomer.
    destruct (truthy (Callback.input_ThirdPartyReference body)) as [ref|] eqn:Href.
    2:{ left. by rewrite (mpesaCallback_missing _ _ _ Href). }
    destruct (findOne ref (orders db)) as [[i o]|] eqn:Hfind.
    2:{ left. by rewrite (mpesaCallback_unknown _ _ _ _ Href Hfind). }
    rewrite (mpesaCallback_found_notifications _ _ _ _ _ _ Href Hfind).
    destruct (mpesaCallback_found env db body ref i o Href Hfind) as [-> _].
    destruct (validate o); [|by left].
    match goal with
    | |- context [sendWhatsAppMessage env _ ?m] =>
        destruct (sendWhatsAppMessage_cases env (Order.customerInfo o) m)
          as [->|[Hsock ->]]; [by left|]
    end.
    right. split; [done|]. eexists (reconciled o body), _. split.
    + simpl. apply list_elem_of_lookup. exists i.
      apply list_lookup_insert_eq.
      apply findOne_Some in Hfind as [Hi _]. by apply lookup_lt_Some in Hi.
    + assert (Hci : Order.customerInfo (reconciled o body) = Order.customerInfo o)
        by (unfold reconciled; by case_bool_decide).
      by rewrite Hci.
  - intros id s. unfold notifiesCustomer.
    destruct id as [id|raw]; [|by left].
    destruct (findById id (orders db)) as [[i o]|] eqn:Hfind.
    2:{ left. by rewrite updateOrderStatus_unknown. }
    destruct (parseOrderStatus s) as [e|st] eqn:Hs.
    { left. unfold updateOrderStatus. by rewrite Hfind, Hs. }
    apply parseOrderStatus_inr in Hs as ->.
    destruct (validate o) eqn:Hvalid.
    2:{ left. unfold updateOrderStatus.
        rewrite Hfind, parseOrderStatus_name. simpl. unfold saveOrder.
        replace (validate (Order.set_orderStatus o st)) with false; done. }
    rewrite (updateOrderStatus_found _ _ _ _ _ _ Hfind Hvalid). simpl.
    destruct (sendWhatsAppMessage_cases env (Order.customerInfo o)
                (Notification.StatusChanged (Order.trackingId o) st))
      as [->|[Hsock ->]]; [by left|].
    right. split; [done|]. eexists (Order.set_orderStatus o st), _. split.
    + apply list_elem_of_lookup. exists i. apply list_lookup_insert_eq.
      apply findById_Some in Hfind as [Hi _]. by apply lookup_lt_Some in Hi.
    + done.
  - intros body ci items pm sent e Hv Ht.
    by rewrite (createOrder_aborted _ _ _ _ _ _ _ _ Hv Ht).
Qed.

Lemma handlers_notify_customer_witness :
  notifications (createOrder Sample.env Sample.db
                   (Sample.checkout "Entrega" [CartItem.mk "P9" 1])) = [].
Proof.
  destruct (handlers_notify_customer Sample.env Sample.db) as (_ & _ & _ & H).
  eapply (H _ Sample.customer [CartItem.mk "P9" 1] "Entrega"); reflexivity.
Defined.

(** ** What the checkout refuses *)

Lemma validated_None body :
  validated body = None
  ↔ body_customerInfo body = None
    ∨ body_products body = None
    ∨ body_paymentMethod body = None
    ∨ body_paymentMethod body = Some EmptyString.
Proof.
  unfold validated.
  destruct (body_customerInfo body), (body_products body),
    (body_paymentMethod body) as [[|? ?]|]; simpl; intuition congruence.
Qed.

(** X20. The checkout answers 400 exactly when the request lacks the
    customer, the list of products or a payment method that is not empty;
    an empty list of products or a customer without fields does not count
    as lacking.  With that answer nothing is changed or sent. *)
Theorem createOrder_incomplete_iff env db body :
  let out := createOrder env db body in
  ((Http.status <$> response out) = Some 400%Z
   ↔ body_customerInfo body = None
     ∨ body_products body = None
     ∨ body_paymentMethod body = None
     ∨ body_paymentMethod body = Some EmptyString)
  ∧ ((Http.status <$> response out) = Some 400%Z ->
     out = mkOutcome (Some (Http.mk 400 Http.IncompleteOrder)) db [] []).
Proof.
  simpl. rewrite <- validated_None.
  destruct (validated body) as [[[ci items] pm]|] eqn:Hv.
  - assert (Hno : (Http.status <$> response (createOrder env db body)) ≠ Some 400%Z).
    { destruct (transaction env db ci items pm) as [sent [e|[[tx o] r]]] eqn:Ht.
      - rewrite (createOrder_aborted _ _ _ _ _ _ _ _ Hv Ht). simpl.
        destruct (catchCreateOrder_in_progress e) as [b ->]. done.
      - destruct (createOrder_committed _ _ _ _ _ _ _ _ _ _ Hv Ht) as (_ & _ & ->).
        by case_bool_decide. }
    split; [split|]; done.
  - rewrite createOrder_incomplete by done. by split.
Qed.

(** X21. An order that fails the validation of its schema is refused only
    after the cart was processed: for a request whose lines can all be
    reserved but whose payment method is none of Mpesa, Emola, Cartao and
    Entrega, or whose customer has an empty name, phone or address, the
    answer is 500 with the validation error, the reservation is undone
    with the transaction, and nothing is sent. *)
Theorem createOrder_invalid_order env db body ci items pm c :
  validated body = Some (ci, items, pm) ->
  reserveAll items (mkCart (catalog db) 0 []) = inr c ->
  pm ∉ paymentMethods
  ∨ Customer.name ci = EmptyString
  ∨ Customer.phone ci = EmptyString
  ∨ Customer.address ci = EmptyString ->
  createOrder env db body
  = mkOutcome (Some (Http.mk 500 (Http.OrderError ValidationError))) db [] [].
Proof.
  intros Hv Hc Hbad.
  assert (Hvalid : validate (newOrder env ci c pm) = false).
  { unfold validate. simpl.
    destruct Hbad as [Hpm | [ -> | [ -> | -> ] ] ]; simpl;
      rewrite ?andb_false_r; try done.
    by rewrite bool_decide_eq_false_2, andb_false_r. }
  assert (Ht : transaction env db ci items pm = ([], inl ValidationError)).
  { unfold transaction. rewrite Hc. simpl. unfold saveOrder. by rewrite Hvalid. }
  by rewrite (createOrder_aborted _ _ _ _ _ _ _ _ Hv Ht).
Qed.

Lemma createOrder_invalid_order_witness :
  createOrder Sample.env Sample.db (Sample.checkout "PayPal" Sample.cart)
  = mkOutcome (Some (Http.mk 500 (Http.OrderError ValidationError))) Sample.db [] [].
Proof.
  eapply (createOrder_invalid_order Sample.env Sample.db _ Sample.customer
            Sample.cart "PayPal"); [reflexivity|vm_compute; reflexivity|].
  left. unfold paymentMethods. rewrite !elem_of_cons, elem_of_nil.
  intros [H|[H|[H|[H|H]]]]; try discriminate H. exact H.
Defined.

(** X22. A checkout with the method Mpesa is never answered with 201.
    Every answer it gets has status 500 and leaves the store as it was;
    and when its transaction commits, the order and the stock decrement
    are persisted and the notification is sent, but the handler raises
    while it builds the answer and the client receives none. *)
Theorem createOrder_mpesa_no_answer env db body ci items :
  validated body = Some (ci, items, "Mpesa") ->
  let out := createOrder env db body in
  (∀ r, response out = Some r -> Http.status r = 500%Z ∧ store out = db)
  ∧ (∀ sent tx o a,
       transaction env db ci items "Mpesa" = (sent, inr (tx, o, a)) ->
       response out = None
       ∧ store out = tx
       ∧ orders tx = (orders db ++ [o])%list
       ∧ Order.paymentStatus o = pending).
Proof.
  intros Hv. simpl.
  destruct (transaction env db ci items "Mpesa") as [sent [e|[[tx o] a]]] eqn:Ht.
  - rewrite (createOrder_aborted _ _ _ _ _ _ _ _ Hv Ht). simpl. split; [|done].
    intros r Hr. destruct (catchCreateOrder_in_progress e) as [b Hb].
    rewrite Hb in Hr. by injection Hr as <-.
  - destruct (createOrder_committed _ _ _ _ _ _ _ _ _ _ Hv Ht) as (-> & _ & ->).
    simpl. split; [done|].
    intros ? ? ? ? [= <- <- <- <-]. repeat split.
    + by destruct (transaction_inr _ _ _ _ _ _ _ _ _ Ht) as (c & _ & _ & _ & ->).
    + destruct (transaction_inr _ _ _ _ _ _ _ _ _ Ht) as (c & _ & _ & Hp & _).
      unfold payment in Hp. simpl in Hp.
      destruct (normalizeMpesaNumber _) as [e|msisdn]; [done|].
      destruct (mpesaApi env _) as [d| |]; [|done..].
      injection Hp as _ Hp. destruct (saveOrder _) as [e|o1] eqn:Hs; [done|].
      apply saveOrder_inr in Hs as [-> _]. by injection Hp as <- _.
Qed.

Lemma createOrder_mpesa_no_answer_witness :
  response (createOrder Sample.env Sample.db (Sample.checkout "Mpesa" Sample.cart))
  = None
  ∧ length (orders Sample.afterMpesa) = 1%nat.
Proof.
  destruct (createOrder_mpesa_no_answer Sample.env Sample.db
              (Sample.checkout "Mpesa" Sample.cart) Sample.customer Sample.cart
              eq_refl) as [_ Hcommit].
  edestruct Hcommit as (Hr & _); [vm_compute; reflexivity|].
  split; [exact Hr|reflexivity].
Defined.

(** X23. The generated reference is the word PERFUME_ followed by the
    clock reading in decimal, so two checkouts get the same reference
    exactly when they read the same millisecond. *)
Theorem newReference_collides_iff env1 env2 :
  newReference env1 = newReference env2 ↔ now env1 = now env2.
Proof. split; [apply newReference_inj|apply newReference_same_clock]. Qed.

(** ** The fields of an order that are never written again *)

Lemma sameIdentity_refl o : sameIdentity o o.
Proof. by repeat split. Qed.

Lemma Forall2_sameIdentity_refl os : Forall2 sameIdentity os os.
Proof.
  apply Forall_Forall2_diag, Forall_forall. intros o _. apply sameIdentity_refl.
Qed.

Lemma keepsOrders_insert os i o o' :
  os !! i = Some o -> sameIdentity o o' -> keepsOrders os (<[i := o']> os).
Proof.
  intros Hi Hsame. exists (<[i := o']> os), []. rewrite app_nil_r. split; [done|].
  rewrite <- (list_insert_id _ _ _ Hi) at 1.
  apply Forall2_insert; [apply Forall2_sameIdentity_refl|done].
Qed.

Lemma keepsOrders_refl os : keepsOrders os os.
Proof.
  exists os, []. rewrite app_nil_r. split; [done|apply Forall2_sameIdentity_refl].
Qed.

(** X24. No handler deletes, moves or rewrites the identity of a stored
    order.  After a checkout, a callback or a status update every order
    that was stored is still at its place with the same id, customer,
    lines, total, payment method, tracking id and provider reference;
    only a checkout adds an order, at the end. *)
Theorem handlers_keep_orders env db :
  (∀ body, keepsOrders (orders db) (orders (store (createOrder env db body))))
  ∧ (∀ body, keepsOrders (orders db) (orders (store (mpesaCallback env db body)))
             ∧ length (orders (store (mpesaCallback env db body)))
               = length (orders db))
  ∧ (∀ id s, keepsOrders (orders db) (orders (store (updateOrderStatus env db id s)))
             ∧ length (orders (store (updateOrderStatus env db id s)))
               = length (orders db)).
Proof.
  split; [|split].
  - intros body.
    destruct (createOrder_orders env db body)
      as [->|(ci & items & pm & sent & tx & o & r & _ & _ & ->)];
      [apply keepsOrders_refl|].
    exists (orders db), [o]. split; [done|apply Forall2_sameIdentity_refl].
  - intros body.
    destruct (mpesaCallback_orders env db body) as [->|(i & o & Hi & ->)].
    + split; [apply keepsOrders_refl|done].
    + split; [|apply length_insert].
      apply (keepsOrders_insert _ _ o); [done|].
      unfold sameIdentity, reconciled. by case_bool_decide.
  - intros id s.
    destruct (updateOrderStatus_orders env db id s)
      as [->|(i & o & st & Hi & ->)].
    + split; [apply keepsOrders_refl|done].
    + split; [|apply length_insert].
      by apply (keepsOrders_insert _ _ o).
Qed.

Lemma createOrder_incomplete_iff_witness :
  createOrder Sample.env Sample.db
    (mkCheckout (Some Sample.customer) None (Some "Entrega"))
  = mkOutcome (Some (Http.mk 400 Http.IncompleteOrder)) Sample.db [] [].
Proof.
  destruct (createOrder_incomplete_iff Sample.env Sample.db
              (mkCheckout (Some Sample.customer) None (Some "Entrega")))
    as [Hiff Hout].
  apply Hout, Hiff. right. left. reflexivity.
Defined.

Lemma newReference_collides_iff_witness :
  newReference Sample.env = newReference Sample.env2.
Proof. apply newReference_collides_iff. reflexivity. Defined.
